(** * A shallow embedding of [typing_metric2.py]

    The dashboard has three functions with logic in them:
    [get_stock_data] (the market-data client), [generate_metric_graph]
    (the chart renderer, which fetches for itself) and [update_graphs]
    (the Dash callback).  They are embedded below over an abstract
    market-data provider, in a state-and-exception monad whose state
    holds the provider's hidden state, the text printed so far and a
    record of the calls made. *)

From stdpp Require Import gmap strings list fin_maps pretty.
From Stdlib Require Import ZArith.

Open Scope string_scope.

(** ** The [theme] dictionary (lines 13-24); only the entries read by
    the three functions are listed. *)
Module theme.
Definition background : string := "#121212".
Definition text : string := "#F5F5F5".
Definition plot_bg : string := "#1a1a1a".
Definition line : string := "#00CED1".
End theme.

(** ** The options of the dropdowns (lines 55-73), as (label, value)
    pairs *)
Definition metric_options : list (string * string) :=
  [ ("Open Price", "Open");
    ("Close Price", "Close");
    ("Day High", "High");
    ("Day Low", "Low");
    ("Volume", "Volume");
    ("Market Cap", "Market Cap");
    ("PE Ratio", "PE Ratio");
    ("Dividend Yield", "Dividend Yield") ].

Definition chart_type_options : list (string * string) :=
  [ ("Line", "lines");
    ("Bar", "bars");
    ("Scatter", "markers");
    ("Bubble", "bubble");
    ("Candlestick", "candlestick");
    ("Choropleth Map", "choropleth") ].

(** Dates travel through the callback as ISO-8601 text, which orders
    chronologically under the lexicographic order of strings. *)
Definition date := string.

Definition date_ltb (a b : date) : bool := String.ltb a b.

(** Exceptions derived from Python's [Exception]: the failed column
    lookup of pandas, the failed list index, the value that plotly
    refuses for a property, and whatever the provider raises. *)
Inductive exn :=
| KeyError (key : string)
| IndexError (msg : string)
| ProviderError (msg : string)
| ValueError (msg : string).

(** [str(e)] *)
Definition str (e : exn) : string :=
  match e with
  | KeyError k => "'" ++ k ++ "'"
  | IndexError m => m
  | ProviderError m => m
  | ValueError m => m
  end.

Inductive result (A : Type) :=
| Ok (a : A)
| Raise (e : exn).
Arguments Ok {A} a.
Arguments Raise {A} e.

(** Prices are floating-point numbers that the program stores and
    forwards but never computes with: their type is left open.  Two
    operations of the libraries reach into them: pandas turns an integer
    into a float when it gives a column the type float64, and plotly
    asks whether a marker size is at least zero. *)
Class Float64 (num : Type) := {
  float_of_int : Z → num;
  float_nonneg : num → bool
}.

Section Model.

Context {num : Type} {num_float : Float64 num}.

(** The cells of frames and dictionaries.  [VFloat] holds the floats
    that are numbers, [VNaN] is the float that is not; integers are
    those of a 64-bit column. *)
Inductive value :=
| VNone
| VInt (z : Z)
| VFloat (x : num)
| VNaN
| VStr (s : string)
| VTime (d : date).

(** ** pandas data frames: row labels and named columns *)
Record DataFrame := {
  index : list value;
  columns : gmap string (list value)
}.

(** [pd.DataFrame()] *)
Definition DataFrame_empty : DataFrame :=
  {| index := []; columns := ∅ |}.

(** The type pandas gives a column built from Python objects: a column
    of integers stays as it is; a column of numbers and [None]s with at
    least one number becomes float64, where every integer is turned into
    a float and every [None] into NaN; any other column (one that holds a
    string, or nothing but [None]) keeps its objects untouched. *)
Definition is_int (v : value) : bool :=
  match v with VInt _ => true | _ => false end.

Definition is_number (v : value) : bool :=
  match v with VInt _ | VFloat _ | VNaN => true | _ => false end.

Definition is_number_or_none (v : value) : bool :=
  match v with VNone => true | _ => is_number v end.

Definition to_float (v : value) : value :=
  match v with
  | VInt z => VFloat (float_of_int z)
  | VNone => VNaN
  | _ => v
  end.

Definition infer_objects (col : list value) : list value :=
  if forallb is_int col then col
  else if forallb is_number_or_none col && existsb is_number col
       then to_float <$> col
  else col.

(** [pd.DataFrame(items, columns=[c1, c2])] for a list of pairs *)
Definition DataFrame_of_items (items : list (string * value)) (c1 c2 : string)
  : DataFrame :=
  {| index := (λ i, VInt (Z.of_nat i)) <$> seq 0 (length items);
     columns :=
       <[c2 := infer_objects (snd <$> items)]>
       (<[c1 := infer_objects ((VStr ∘ fst) <$> items)]> ∅) |}.

(** [metric in df.columns] *)
Definition has_column (df : DataFrame) (name : string) : bool :=
  bool_decide (is_Some (columns df !! name)).

(** [df[name]] *)
Definition getitem (df : DataFrame) (name : string) : result (list value) :=
  match columns df !! name with
  | Some col => Ok col
  | None => Raise (KeyError name)
  end.

(** [df.to_dict('records')]: one dictionary per row *)
Definition to_dict_records (df : DataFrame) : list (gmap string value) :=
  (λ i, (λ col : list value, default VNone (col !! i)) <$> columns df)
    <$> seq 0 (length (index df)).

(** [d.get(key, fallback)] *)
Definition dict_get (d : gmap string value) (key : string) (fallback : value)
  : value :=
  default fallback (d !! key).

(** ** plotly figures *)
Record marker := {
  size : option (list value);
  color : string
}.

Inductive trace :=
| Scatter (x y : list value) (mode : string)
          (line : option string) (mark : option marker)
| Bar (x y : list value) (marker_color : string)
| Candlestick (x open high low close : list value)
              (increasing_line_color decreasing_line_color : string).

Record Figure := {
  data : list trace;
  layout : gmap string value
}.

(** [go.Figure()] *)
Definition Figure_empty : Figure := {| data := []; layout := ∅ |}.

(** plotly checks [marker.size] when the trace is built: every size must
    be a number that is at least zero, which NaN, [None], a string and a
    timestamp are not.  Of the text of its [ValueError] only the first
    line is kept. *)
Definition size_ok (v : value) : bool :=
  match v with
  | VInt z => (0 <=? z)%Z
  | VFloat x => float_nonneg x
  | _ => false
  end.

Definition validate_size (sizes : list value) : result (list value) :=
  if forallb size_ok sizes then Ok sizes
  else Raise (ValueError
                "Invalid element(s) received for the 'size' property of scatter.marker").

Definition add_trace (fig : Figure) (t : trace) : Figure :=
  {| data := data fig ++ [t]; layout := layout fig |}.

(** [fig.update_layout(k1=v1, ...)]: the keyword arguments are written
    into the layout one after the other. *)
Definition update_layout (fig : Figure) (props : list (string * value))
  : Figure :=
  {| data := data fig;
     layout := foldl (λ m kv, <[kv.1 := kv.2]> m) (layout fig) props |}.

(** ** The market-data provider ([yfinance])

    [Ticker] builds a handle, [history] and [info] query it.  Each may
    raise, and each may read and change the provider's hidden state
    (the network, its caches). *)
Record Provider := {
  world : Type;
  handle : Type;
  Ticker : string → world → result handle * world;
  history : handle → date → date → world → result DataFrame * world;
  info : handle → world → result (gmap string value) * world
}.

(** Calls recorded while the program runs. *)
Inductive call :=
| GetStockData (ticker : string) (start_date end_date : date)
| GenerateMetricGraph (ticker metric chart_type : string)
                      (start_date end_date : date).

Definition is_fetch (c : call) : bool :=
  match c with GetStockData _ _ _ => true | _ => false end.


Section Program.

Variable P : Provider.

Record state := {
  net : world P;
  calls : list call;
  stdout : list string
}.

(** ** The monad of the program: state and exceptions *)
Definition Py (A : Type) : Type := state → result A * state.

Definition ret {A} (a : A) : Py A := λ st, (Ok a, st).

Definition bind {A B} (m : Py A) (k : A → Py B) : Py B :=
  λ st, match m st with
        | (Ok a, st') => k a st'
        | (Raise e, st') => (Raise e, st')
        end.

(** [try: body except Exception as e: handler(e)] *)
Definition try_except {A} (body : Py A) (handler : exn → Py A) : Py A :=
  λ st, match body st with
        | (Ok a, st') => (Ok a, st')
        | (Raise e, st') => handler e st'
        end.

Definition lift {A} (r : result A) : Py A := λ st, (r, st).

Definition enter (c : call) : Py unit :=
  λ st, (Ok (), {| net := net st; calls := calls st ++ [c];
                   stdout := stdout st |}).

Definition print (s : string) : Py unit :=
  λ st, (Ok (), {| net := net st; calls := calls st;
                   stdout := stdout st ++ [s] |}).

Definition provider {A} (op : world P → result A * world P) : Py A :=
  λ st, let '(r, w) := op (net st) in
        (r, {| net := w; calls := calls st; stdout := stdout st |}).

Notation "'let*' x ':=' m 'in' k" := (bind m (λ x, k))
  (at level 10, x pattern, m at level 100, k at level 200, only parsing).

(** A list comprehension [[f(i) for i in l]], evaluated left to right. *)
Fixpoint comprehension {A B} (f : A → Py B) (l : list A) : Py (list B) :=
  match l with
  | [] => ret []
  | i :: l' =>
      let* b := f i in
      let* bs := comprehension f l' in
      ret (b :: bs)
  end.

(** [t[i]] on the tuple [args] and its slices *)
Definition tuple_item (t : list string) (i : nat) : result string :=
  match t !! i with
  | Some s => Ok s
  | None => Raise (IndexError "tuple index out of range")
  end.

(** [stock.info.get(key, 'N/A')]: the [info] property is read anew at
    every use. *)
Definition info_get (stock : handle P) (key : string) : Py value :=
  let* d := provider (info P stock) in
  ret (dict_get d key (VStr "N/A")).

(** ** [get_stock_data] (lines 32-52) *)
Definition get_stock_data (ticker : string) (start_date end_date : date)
  : Py (DataFrame * DataFrame) :=
  let* _ := enter (GetStockData ticker start_date end_date) in
  let* stock := provider (Ticker P ticker) in
  try_except
    (let* hist := provider (history P stock start_date end_date) in
     let* v_open := info_get stock "open" in
     let* v_close := info_get stock "previousClose" in
     let* v_high := info_get stock "dayHigh" in
     let* v_low := info_get stock "dayLow" in
     let* v_volume := info_get stock "volume" in
     let* v_cap := info_get stock "marketCap" in
     let* v_pe := info_get stock "trailingPE" in
     let* v_yield := info_get stock "dividendYield" in
     let metrics :=
       [ ("Open", v_open);
         ("Close", v_close);
         ("High", v_high);
         ("Low", v_low);
         ("Volume", v_volume);
         ("Market Cap", v_cap);
         ("PE Ratio", v_pe);
         ("Dividend Yield", v_yield) ] in
     ret (hist, DataFrame_of_items metrics "Metric" "Value"))
    (λ e,
     let* _ := print ("Error fetching data for " ++ ticker ++ ": " ++ str e) in
     ret (DataFrame_empty, DataFrame_empty)).

(** ** The drawing part of [generate_metric_graph] (lines 78-115):
    from the fetched frame to the figure.  It touches neither the
    provider nor any other state. *)
Definition result_bind {A B} (r : result A) (k : A → result B) : result B :=
  match r with
  | Ok a => k a
  | Raise e => Raise e
  end.

Notation "'get' x ':=' r 'in' k" := (result_bind r (λ x, k))
  (at level 10, x pattern, r at level 100, k at level 200, only parsing).

Definition draw (stock_data : DataFrame) (ticker metric chart_type : string)
  : result Figure :=
  let fig := Figure_empty in
  if has_column stock_data metric then
    get fig :=
      (if bool_decide (chart_type = "lines") then
         get y := getitem stock_data metric in
         Ok (add_trace fig
               (Scatter (index stock_data) y "lines" (Some theme.line) None))
       else if bool_decide (chart_type = "bars") then
         get y := getitem stock_data metric in
         Ok (add_trace fig (Bar (index stock_data) y theme.line))
       else if bool_decide (chart_type = "markers") then
         get y := getitem stock_data metric in
         Ok (add_trace fig
               (Scatter (index stock_data) y "markers" None
                  (Some {| size := None; color := theme.line |})))
       else if bool_decide (chart_type = "bubble") then
         get y := getitem stock_data metric in
         get volume := getitem stock_data "Volume" in
         get sizes := validate_size volume in
         Ok (add_trace fig
               (Scatter (index stock_data) y "markers" None
                  (Some {| size := Some sizes; color := theme.line |})))
       else if bool_decide (chart_type = "candlestick") then
         get o := getitem stock_data "Open" in
         get h := getitem stock_data "High" in
         get l := getitem stock_data "Low" in
         get c := getitem stock_data "Close" in
         Ok (add_trace fig
               (Candlestick (index stock_data) o h l c "green" "red"))
       else Ok fig) in
    Ok (update_layout fig
          [ ("title", VStr (metric ++ " for " ++ ticker));
            ("plot_bgcolor", VStr theme.plot_bg);
            ("paper_bgcolor", VStr theme.background);
            ("font_color", VStr theme.text);
            ("xaxis_title", VStr "Time");
            ("yaxis_title", VStr metric);
            ("height", VInt 400) ])
  else
    Ok (update_layout fig
          [ ("title", VStr ("No data available for " ++ metric ++ " of " ++ ticker));
            ("plot_bgcolor", VStr theme.plot_bg);
            ("paper_bgcolor", VStr theme.background);
            ("font_color", VStr theme.text);
            ("height", VInt 400) ]).

(** ** [generate_metric_graph] (lines 76-115): one fetch of its own,
    then the drawing. *)
Definition generate_metric_graph
  (ticker metric chart_type : string) (start_date end_date : date)
  : Py Figure :=
  let* _ :=
    enter (GenerateMetricGraph ticker metric chart_type start_date end_date) in
  let* (stock_data, _) := get_stock_data ticker start_date end_date in
  lift (draw stock_data ticker metric chart_type).

(** ** [update_graphs] (lines 221-236)

    The two [return] statements have different shapes: a pair of the
    list of figures and the table when the ticker is empty, one list
    of the figures followed by the table otherwise. *)
Inductive outputs :=
| Paired (figures : list Figure) (table : list (gmap string value))
| Chained (figures : list Figure) (table : list (gmap string value)).

(** [not ticker], for the text input's value ([None] before any
    typing) *)
Definition is_falsy (ticker : option string) : bool :=
  match ticker with
  | None => true
  | Some s => bool_decide (s = "")
  end.

Definition update_graphs (ticker : option string)
  (start_date end_date : date) (args : list string) : Py outputs :=
  if is_falsy ticker then
    (* [go.Figure()] * 4: one empty figure, four times *)
    ret (Paired (replicate 4 Figure_empty) [])
  else
    (* a truthy ticker is a non-empty string *)
    let ticker := default "" ticker in
    let metric_values := take 4 args in
    let chart_values := drop 4 args in
    let* figures :=
      comprehension
        (λ i,
         let* metric := lift (tuple_item metric_values i) in
         let* chart_type := lift (tuple_item chart_values i) in
         generate_metric_graph ticker metric chart_type start_date end_date)
        (seq 0 4) in
    let* (_, metrics_df) := get_stock_data ticker start_date end_date in
    ret (Chained figures (to_dict_records metrics_df)).

End Program.

End Model.

Arguments value : clear implicits.
Arguments DataFrame : clear implicits.
Arguments Figure : clear implicits.
Arguments trace : clear implicits.
Arguments marker : clear implicits.
Arguments Provider : clear implicits.
Arguments outputs : clear implicits.
Arguments net {num P} _.
Arguments calls {num P} _.
Arguments stdout {num P} _.

(** ** Names used by the statements below *)

(** The row labels of the metrics table, in the order of the dictionary
    literal of lines 39-48, and the provider keys they are read from. *)
Definition canonical_keys : list string :=
  ["Open"; "Close"; "High"; "Low"; "Volume"; "Market Cap"; "PE Ratio";
   "Dividend Yield"].





(** The figure of the [else] branch (lines 108-114): no trace, and the
    title that says so. *)
Definition no_data_figure {num} (metric ticker : string) : Figure num :=
  {| data := [];
     layout :=
       <["height" := VInt 400]>
       (<["font_color" := VStr theme.text]>
       (<["paper_bgcolor" := VStr theme.background]>
       (<["plot_bgcolor" := VStr theme.plot_bg]>
       (<["title" :=
            VStr ("No data available for " ++ metric ++ " of " ++ ticker)]>
        ∅)))) |}.

(** The layout set on the [if] branch (lines 98-106), around the traces
    [ts]. *)
Definition titled_figure {num} (ts : list (trace num)) (metric ticker : string)
  : Figure num :=
  {| data := ts;
     layout :=
       <["height" := VInt 400]>
       (<["yaxis_title" := VStr metric]>
       (<["xaxis_title" := VStr "Time"]>
       (<["font_color" := VStr theme.text]>
       (<["paper_bgcolor" := VStr theme.background]>
       (<["plot_bgcolor" := VStr theme.plot_bg]>
       (<["title" := VStr (metric ++ " for " ++ ticker)]> ∅)))))) |}.

(** The four columns a candlestick reads, in the order it reads them. *)
Definition ohlc : list string := ["Open"; "High"; "Low"; "Close"].

(** The columns of the provider's historical series. *)
Definition ohlcv_columns : list string :=
  ["Open"; "High"; "Low"; "Close"; "Volume"].

(** The metrics of [metric_options] that are no column of the historical
    series: they exist only in the snapshot. *)
Definition snapshot_only : list string :=
  filter (λ m, m ∉ ohlcv_columns) (snd <$> metric_options).

(** A frame with one column taken away. *)
Definition drop_column {num} (name : string) (df : DataFrame num)
  : DataFrame num :=
  {| index := index df; columns := delete name (columns df) |}.

(** The calls made between two states of one run. *)
Definition new_calls {num} {P : Provider num} (before after : state P)
  : list call :=
  drop (length (calls before)) (calls after).

(** ** Sample providers and frames, with prices as integers *)
#[global] Instance Float64_Z : Float64 Z :=
  {| float_of_int := λ z, z; float_nonneg := λ z, (0 <=? z)%Z |}.

Module Samples.

Local Open Scope Z_scope.

Definition px (l : list Z) : list (value Z) := VFloat <$> l.

Definition days : list (value Z) :=
  [VTime "2024-01-02"; VTime "2024-01-03"].

Definition ohlcv : DataFrame Z :=
  {| index := days;
     columns :=
       <["Open" := px [10; 11]]>
       (<["High" := px [12; 13]]>
       (<["Low" := px [9; 10]]>
       (<["Close" := px [11; 12]]>
       (<["Volume" := [VInt 100; VInt 200]]> ∅)))) |}.

Definition close_only : DataFrame Z :=
  {| index := days; columns := <["Close" := px [11; 12]]> ∅ |}.

(** Answers every query, whatever the dates. *)
Definition steady : Provider Z :=
  {| world := unit;
     handle := string;
     Ticker := λ t w, (Ok t, w);
     history := λ _ _ _ w, (Ok ohlcv, w);
     info := λ _ w,
       (Ok (<["open" := VFloat 10]> (<["volume" := VInt 200]> ∅)), w) |}.

(** Builds handles, then fails on every query. *)
Definition offline : Provider Z :=
  {| world := unit;
     handle := string;
     Ticker := λ t w, (Ok t, w);
     history := λ _ _ _ w, (Raise (ProviderError "No data found"), w);
     info := λ _ w, (Raise (ProviderError "No data found"), w) |}.

(** Counts the queries it has answered; its snapshot changes with the
    count. *)
Definition counting : Provider Z :=
  {| world := nat;
     handle := string;
     Ticker := λ t n, (Ok t, n);
     history := λ _ _ _ n, (Ok ohlcv, S n);
     info := λ _ n, (Ok (<["open" := VInt (Z.of_nat n)]> ∅), S n) |}.

Definition fresh (P : Provider Z) (w : world P) : state P :=
  Build_state P w [] [].

Definition panels : list string :=
  ["Close"; "Open"; "Volume"; "Close"; "lines"; "bars"; "markers"; "lines"].

Definition jan : date := "2024-01-01".
Definition dec : date := "2024-12-31".

End Samples.

(** ** The rest of the program *)

(** The first of [names] that is no column of [df]. *)
Definition first_absent {num} (df : DataFrame num) (names : list string)
  : option string :=
  List.find (λ k, negb (has_column df k)) names.

(** The chart types that have a branch in [generate_metric_graph]. *)
Definition drawn_chart_types : list string :=
  ["lines"; "bars"; "markers"; "bubble"; "candlestick"].

(** The number of values a return of [update_graphs] hands to Dash: the
    pair has two, the list has one per figure and one for the table. *)
Definition arity {num} (out : outputs num) : nat :=
  match out with
  | Paired _ _ => 2
  | Chained figures _ => length figures + 1
  end.

(** *** The provider, observed

    [traced P] answers as [P] does and writes down every query made to
    it, in order. *)
Inductive query :=
| QTicker (ticker : string)
| QHistory (start_date end_date : date)
| QInfo.

Definition traced {num} (P : Provider num) : Provider num :=
  {| world := world P * list query;
     handle := handle P;
     Ticker := λ t wq,
       let '(r, w) := Ticker P t wq.1 in (r, (w, (wq.2 ++ [QTicker t])%list));
     history := λ h s e wq,
       let '(r, w) := history P h s e wq.1 in (r, (w, (wq.2 ++ [QHistory s e])%list));
     info := λ h wq,
       let '(r, w) := info P h wq.1 in (r, (w, (wq.2 ++ [QInfo])%list)) |}.

(** *** The callback's declaration (lines 212-220)

    Dash calls [update_graphs] with the values of the [Input]s in the
    order they are listed, and expects one value per [Output]. *)
Definition callback_outputs : list (string * string) :=
  app ((λ i : nat, ("metric-graph-" ++ pretty i, "figure")) <$> seq 0 4)
      [("stock-metrics", "data")].

Definition callback_inputs : list (string * string) :=
  app [ ("stock-input", "value");
        ("date-picker-range", "start_date");
        ("date-picker-range", "end_date") ]
   (app ((λ i : nat, ("metric-dropdown-" ++ pretty i, "value")) <$> seq 0 4)
        ((λ i : nat, ("chart-type-dropdown-" ++ pretty i, "value"))
           <$> seq 0 4)).

(** *** The page (lines 118-209)

    A component has a kind, and of its properties those that callbacks
    and the browser's first request depend on: its id, its initial
    value, its options, the ids of its table columns.  Styles, widths and
    texts are left out, and the four dates of the date picker are
    modelled apart, by [default_start_date] below. *)
Record props := {
  c_id : option string;
  c_value : option string;
  c_options : list (string * string);
  c_columns : list string
}.

Inductive component :=
| Element (kind : string) (p : props) (children : list component).

Definition plain : props :=
  {| c_id := None; c_value := None; c_options := []; c_columns := [] |}.

Definition with_id (name : string) : props :=
  {| c_id := Some name; c_value := None; c_options := []; c_columns := [] |}.

Definition dropdown (name : string) (options : list (string * string))
  (initial : string) : component :=
  Element "Dropdown"
    {| c_id := Some name; c_value := Some initial; c_options := options;
       c_columns := [] |} [].

Definition app_layout : component :=
  Element "Container" plain
    [ Element "Row" plain [Element "Col" plain [Element "H1" plain []]];
      Element "Row" plain
        [Element "Col" plain [Element "Input" (with_id "stock-input") []]];
      Element "Row" plain
        [Element "Col" plain
           [Element "DatePickerRange" (with_id "date-picker-range") []]];
      Element "Row" plain
        ((λ i : nat,
            Element "Col" plain
              [ dropdown ("metric-dropdown-" ++ pretty i) metric_options "Close";
                dropdown ("chart-type-dropdown-" ++ pretty i)
                  chart_type_options "lines" ])
           <$> seq 0 4);
      Element "Row" plain
        ((λ i : nat,
            Element "Col" plain
              [Element "Graph" (with_id ("metric-graph-" ++ pretty i)) []])
           <$> seq 0 4);
      Element "Row" plain
        [Element "Col" plain
           [Element "DataTable"
              {| c_id := Some "stock-metrics"; c_value := None;
                 c_options := []; c_columns := ["Metric"; "Value"] |} []]] ].

(** All components of a tree, parents first. *)
Fixpoint components (c : component) : list (string * props) :=
  match c with
  | Element kind p children => (kind, p) :: concat (map components children)
  end.

Definition component_ids (c : component) : list string :=
  omap (λ kp, c_id kp.2) (components c).

Definition find_component (c : component) (name : string)
  : option (string * props) :=
  List.find (λ kp, bool_decide (c_id kp.2 = Some name)) (components c).

(** The properties of the Dash components that the callback names. *)
Definition component_properties (kind : string) : list string :=
  if bool_decide (kind = "Input") then ["value"]
  else if bool_decide (kind = "Dropdown") then ["value"; "options"]
  else if bool_decide (kind = "DatePickerRange") then ["start_date"; "end_date"]
  else if bool_decide (kind = "Graph") then ["figure"]
  else if bool_decide (kind = "DataTable") then ["data"; "columns"]
  else [].

(** A dependency of the callback resolves when the page has a component
    of that id whose kind has that property. *)
Definition resolves (c : component) (dep : string * string) : bool :=
  match find_component c dep.1 with
  | Some (kind, _) => bool_decide (dep.2 ∈ component_properties kind)
  | None => false
  end.

(** *** The default dates of the date picker (lines 144-147) *)
Module datetime.

Local Open Scope Z_scope.

Record t := {
  year : Z;
  month : Z;
  day : Z;
  microsecond_of_day : Z
}.

Inductive outcome :=
| Value (d : t)
| ValueError (msg : string).

Definition is_leap (y : Z) : bool :=
  (y mod 4 =? 0) && (negb (y mod 100 =? 0) || (y mod 400 =? 0)).

Definition days_in_month (y m : Z) : Z :=
  if m =? 2 then (if is_leap y then 29 else 28)
  else if (m =? 4) || (m =? 6) || (m =? 9) || (m =? 11) then 30
  else 31.

(** The range checks every [datetime] passes when it is built. *)
Definition year_ok (y : Z) : bool := (1 <=? y) && (y <=? 9999).

Definition day_ok (y m d : Z) : bool := (1 <=? d) && (d <=? days_in_month y m).

Definition valid (d : t) : bool :=
  year_ok (year d)
  && (1 <=? month d) && (month d <=? 12)
  && day_ok (year d) (month d) (day d)
  && (0 <=? microsecond_of_day d) && (microsecond_of_day d <? 86400000000).

(** [d.replace(year=y)]: a new [datetime], checked again. *)
Definition replace_year (d : t) (y : Z) : outcome :=
  if negb (year_ok y) then
    ValueError ("year " ++ pretty y ++ " is out of range")
  else if negb (day_ok y (month d) (day d)) then
    ValueError "day is out of range for month"
  else
    Value {| year := y; month := month d; day := day d;
             microsecond_of_day := microsecond_of_day d |}.

(** [datetime.now().replace(year=datetime.now().year - 1)], with the two
    readings of the clock in the order they are taken. *)
Definition default_start_date (now1 now2 : t) : outcome :=
  replace_year now1 (year now2 - 1).

(** [datetime(2000, 1, 1)] *)
Definition min_date_allowed : t :=
  {| year := 2000; month := 1; day := 1; microsecond_of_day := 0 |}.

(** [a < b] on two datetimes *)
Definition ltb (a b : t) : bool :=
  if year a =? year b then
    if month a =? month b then
      if day a =? day b then microsecond_of_day a <? microsecond_of_day b
      else day a <? day b
    else month a <? month b
  else year a <? year b.

End datetime.

(** *** Views and assumptions used by the statements *)

(** The outcomes of [draw], one per path through lines 80-115. *)
Inductive draw_view {num} `{Float64 num} (df : DataFrame num)
  (ticker metric : string)
  : string → result (Figure num) → Prop :=
| view_absent chart_type :
    columns df !! metric = None →
    draw_view df ticker metric chart_type (Ok (no_data_figure metric ticker))
| view_lines y :
    columns df !! metric = Some y →
    draw_view df ticker metric "lines"
      (Ok (titled_figure
             [Scatter (index df) y "lines" (Some theme.line) None]
             metric ticker))
| view_bars y :
    columns df !! metric = Some y →
    draw_view df ticker metric "bars"
      (Ok (titled_figure [Bar (index df) y theme.line] metric ticker))
| view_markers y :
    columns df !! metric = Some y →
    draw_view df ticker metric "markers"
      (Ok (titled_figure
             [Scatter (index df) y "markers" None
                (Some {| size := None; color := theme.line |})]
             metric ticker))
| view_bubble y volume :
    columns df !! metric = Some y →
    columns df !! "Volume" = Some volume →
    forallb size_ok volume = true →
    draw_view df ticker metric "bubble"
      (Ok (titled_figure
             [Scatter (index df) y "markers" None
                (Some {| size := Some volume; color := theme.line |})]
             metric ticker))
| view_bubble_error y :
    columns df !! metric = Some y →
    columns df !! "Volume" = None →
    draw_view df ticker metric "bubble" (Raise (KeyError "Volume"))
| view_bubble_invalid y volume msg :
    columns df !! metric = Some y →
    columns df !! "Volume" = Some volume →
    forallb size_ok volume = false →
    draw_view df ticker metric "bubble" (Raise (ValueError msg))
| view_candlestick y o h l c :
    columns df !! metric = Some y →
    columns df !! "Open" = Some o →
    columns df !! "High" = Some h →
    columns df !! "Low" = Some l →
    columns df !! "Close" = Some c →
    draw_view df ticker metric "candlestick"
      (Ok (titled_figure [Candlestick (index df) o h l c "green" "red"]
             metric ticker))
| view_candlestick_error y k :
    columns df !! metric = Some y →
    first_absent df ohlc = Some k →
    draw_view df ticker metric "candlestick" (Raise (KeyError k))
| view_other y chart_type :
    columns df !! metric = Some y →
    chart_type ∉ drawn_chart_types →
    draw_view df ticker metric chart_type
      (Ok (titled_figure [] metric ticker)).

(** The results of a sequence of steps of which the first error ends the
    sequence. *)
Fixpoint all_ok {A} (rs : list (result A)) : result (list A) :=
  match rs with
  | [] => Ok []
  | Raise ex :: _ => Raise ex
  | Ok a :: rs' =>
      match all_ok rs' with
      | Ok l => Ok (a :: l)
      | Raise ex => Raise ex
      end
  end.

(** A provider that, in every state, builds the handle of [ticker],
    returns the series [df] for the range and can read [info]. *)
Definition answers {num} (P : Provider num) (ticker : string)
  (start_date end_date : date) (df : DataFrame num) : Prop :=
  (∀ w, ∃ h w1 w2,
     Ticker P ticker w = (Ok h, w1)
     ∧ history P h start_date end_date w1 = (Ok df, w2))
  ∧ (∀ h w, ∃ d w', info P h w = (Ok d, w')).



(** *** More sample providers *)
Module MoreSamples.

(** Cannot even build a handle. *)
Definition unreachable : Provider Z :=
  {| world := unit;
     handle := string;
     Ticker := λ _ w, (Raise (ProviderError "Invalid ISIN number"), w);
     history := λ _ _ _ w, (Ok Samples.ohlcv, w);
     info := λ _ w, (Ok ∅, w) |}.



(** A series without rows, with the columns of a historical series: the
    answer to a range in which nothing was traded. *)
Definition no_rows : DataFrame Z :=
  {| index := [];
     columns :=
       <["Open" := []]>
       (<["High" := []]>
       (<["Low" := []]>
       (<["Close" := []]>
       (<["Adj Close" := []]>
       (<["Volume" := []]> ∅))))) |}.

(** Answers a range whose start lies after its end with a series
    without rows, and raises nothing. *)
Definition dated : Provider Z :=
  {| world := unit;
     handle := string;
     Ticker := λ t w, (Ok t, w);
     history := λ _ s e w,
       if date_ltb e s then (Ok no_rows, w) else (Ok Samples.ohlcv, w);
     info := λ _ w,
       (Ok (<["open" := VFloat 10%Z]> (<["volume" := VInt 200]> ∅)), w) |}.

(** The series as it stands after [n] earlier queries: prices move. *)
Definition quote (n : nat) : DataFrame Z :=
  {| index := Samples.days;
     columns :=
       <["Close" := Samples.px [100 + Z.of_nat n; 101 + Z.of_nat n]%Z]> ∅ |}.

(** A provider of live data: every history returns the prices of the
    moment. *)
Definition live : Provider Z :=
  {| world := nat;
     handle := string;
     Ticker := λ t n, (Ok t, n);
     history := λ _ _ _ n, (Ok (quote n), S n);
     info := λ _ n, (Ok ∅, n) |}.

(** The sample series with a negative volume in its first row. *)
Definition bad_volume : DataFrame Z :=
  {| index := Samples.days;
     columns := <["Volume" := [VInt (-100); VInt 200]]> (columns Samples.ohlcv) |}.

(** Two readings of the clock. *)
Definition leap_day_2024 : datetime.t :=
  {| datetime.year := 2024; datetime.month := 2; datetime.day := 29;
     datetime.microsecond_of_day := 43200000000 |}.

Definition nov_3_2026 : datetime.t :=
  {| datetime.year := 2026; datetime.month := 11; datetime.day := 3;
     datetime.microsecond_of_day := 43200000000 |}.

End MoreSamples.

(** * Properties *)

Ltac unfold_py :=
  unfold info_get, try_except, bind, enter, provider, print, ret, lift; simpl.

(** Case analysis on the next provider call of the goal. *)
Ltac provider_step :=
  match goal with
  | |- context [Ticker ?P ?t ?w] =>
      destruct (Ticker P t w) as [[?|?] ?] eqn:?
  | |- context [history ?P ?h ?s ?e ?w] =>
      destruct (history P h s e w) as [[?|?] ?] eqn:?
  | |- context [info ?P ?h ?w] =>
      destruct (info P h w) as [[?|?] ?] eqn:?
  end; simpl.

Section Properties.

Context {num : Type} {num_float : Float64 num}.
Implicit Types (P : Provider num) (df : DataFrame num).
Implicit Types (ticker metric chart_type : string) (start_date end_date : date).

(** *** Data frames *)

Lemma has_column_true df name :
  has_column df name = true ↔ is_Some (columns df !! name).
Proof. unfold has_column. apply bool_decide_eq_true. Qed.

Lemma has_column_false df name :
  has_column df name = false ↔ columns df !! name = None.
Proof.
  unfold has_column. rewrite bool_decide_eq_false.
  symmetry. apply eq_None_not_Some.
Qed.

Lemma infer_objects_length (col : list (value num)) :
  length (infer_objects col) = length col.
Proof.
  unfold infer_objects.
  destruct (forallb is_int col); [done|].
  destruct (forallb is_number_or_none col && existsb is_number col);
    [apply length_fmap|done].
Qed.

(** A column that holds a string keeps its objects. *)
Lemma infer_objects_object (col : list (value num)) s :
  VStr s ∈ col → infer_objects col = col.
Proof.
  intros Hin. unfold infer_objects.
  destruct (forallb is_int col); [done|].
  destruct (forallb is_number_or_none col) eqn:H2; [|done].
  exfalso. apply list_elem_of_In in Hin.
  pose proof (proj1 (forallb_forall _ _) H2 _ Hin) as Hs. discriminate Hs.
Qed.

Lemma infer_objects_keys (keys : list string) :
  infer_objects (num := num) (VStr <$> keys) = VStr <$> keys.
Proof.
  destruct keys as [|k keys]; [done|].
  apply (infer_objects_object _ k). by left.
Qed.

Lemma to_dict_records_of_items (items : list (string * value num)) c1 c2 :
  c1 ≠ c2 →
  to_dict_records (DataFrame_of_items items c1 c2)
  = zip_with (λ k v, <[c2 := v]> (<[c1 := VStr k]> ∅))
      (fst <$> items) (infer_objects (snd <$> items)).
Proof.
  intros Hne. unfold to_dict_records, DataFrame_of_items. simpl.
  rewrite length_fmap, length_seq.
  rewrite (list_fmap_compose fst VStr), infer_objects_keys.
  apply list_eq. intros i. rewrite list_lookup_fmap, lookup_zip_with.
  rewrite list_lookup_fmap.
  destruct (items !! i) as [[k v]|] eqn:Hi; simpl.
  - rewrite lookup_seq_lt by (eapply lookup_lt_Some; eauto). simpl.
    destruct (infer_objects (snd <$> items) !! i) as [v'|] eqn:Hv.
    + simpl. rewrite !fmap_insert, fmap_empty.
      rewrite Hv, !list_lookup_fmap, Hi. done.
    + exfalso. apply lookup_ge_None in Hv.
      rewrite infer_objects_length, length_fmap in Hv.
      apply lookup_lt_Some in Hi. lia.
  - rewrite lookup_seq_ge by (eapply lookup_ge_None; eauto). done.
Qed.

(** *** What a fetch does to the state *)

Lemma get_stock_data_calls P ticker start_date end_date (st : state P) :
  calls (get_stock_data P ticker start_date end_date st).2
  = (calls st ++ [GetStockData ticker start_date end_date])%list.
Proof.
  destruct st as [w cs out]. unfold get_stock_data. unfold_py.
  repeat (provider_step; try reflexivity).
Qed.





(** The record of calls plays no part in a fetch, and a fetch adds to it
    nothing but itself. *)
Lemma get_stock_data_frame P ticker start_date end_date (st : state P) cs :
  get_stock_data P ticker start_date end_date
    (Build_state P (net st) cs (stdout st))
  = ((get_stock_data P ticker start_date end_date st).1,
     Build_state P
       (net (get_stock_data P ticker start_date end_date st).2)
       (cs ++ [GetStockData ticker start_date end_date])
       (stdout (get_stock_data P ticker start_date end_date st).2)).
Proof.
  destruct st as [w cs0 out0]. unfold get_stock_data. unfold_py.
  repeat (provider_step; try reflexivity).
Qed.

(** A rendering records itself and the one fetch it makes. *)
Lemma generate_metric_graph_calls P ticker metric chart_type
      start_date end_date (st : state P) :
  calls (generate_metric_graph P ticker metric chart_type
           start_date end_date st).2
  = (calls st
     ++ [GenerateMetricGraph ticker metric chart_type start_date end_date;
         GetStockData ticker start_date end_date])%list.
Proof.
  unfold generate_metric_graph, bind at 1. simpl.
  set (st1 := Build_state P _ _ _).
  pose proof (get_stock_data_calls P ticker start_date end_date st1) as Hc.
  unfold bind, lift.
  destruct (get_stock_data P ticker start_date end_date st1)
    as [[[stock_data m]|ex] st2]; simpl in *; rewrite Hc;
    by rewrite <- app_assoc.
Qed.

(** *** The drawing, branch by branch *)

Lemma draw_absent df ticker metric chart_type :
  columns df !! metric = None →
  draw df ticker metric chart_type = Ok (no_data_figure metric ticker).
Proof.
  intros H. apply has_column_false in H. unfold draw. rewrite H.
  reflexivity.
Qed.

Lemma elem_of_ohlc (k : string) :
  k ∈ ohlc → k = "Open" ∨ k = "High" ∨ k = "Low" ∨ k = "Close".
Proof.
  unfold ohlc. intros H.
  repeat (apply elem_of_cons in H as [-> | H]); auto.
  by apply elem_of_nil in H.
Qed.

Lemma draw_candlestick_present df ticker metric o h l c :
  has_column df metric = true →
  columns df !! "Open" = Some o → columns df !! "High" = Some h →
  columns df !! "Low" = Some l → columns df !! "Close" = Some c →
  draw df ticker metric "candlestick"
  = Ok (titled_figure [Candlestick (index df) o h l c "green" "red"]
          metric ticker).
Proof.
  intros Hm Ho Hh Hl Hc. unfold draw, getitem. rewrite Hm. simpl.
  rewrite Ho, Hh, Hl, Hc. reflexivity.
Qed.

(** C3, as the code has it: with the selected metric's column present,
    a candlestick over a series that lacks one of Open, High, Low, Close
    is not the placeholder: the lookup of an absent one of the four
    raises [KeyError].  Taking one of the four away from a series that
    has them all gives the placeholder only when the column taken away
    is the selected metric itself, and [KeyError] of that column
    otherwise. *)
Theorem draw_candlestick_columns df ticker metric :
  has_column df metric = true →
  (∀ k, k ∈ ohlc → columns df !! k = None →
     ∃ k', k' ∈ ohlc ∧ columns df !! k' = None
           ∧ draw df ticker metric "candlestick" = Raise (KeyError k'))
  ∧ ((∀ k, k ∈ ohlc → is_Some (columns df !! k)) →
     ∀ k, k ∈ ohlc →
       draw (drop_column k df) ticker metric "candlestick"
       = if bool_decide (k = metric)
         then Ok (no_data_figure metric ticker)
         else Raise (KeyError k)).
Proof.
  intros Hm. split.
  - intros k Hk Hnone. unfold draw, getitem. rewrite Hm. simpl.
    destruct (columns df !! "Open") as [o|] eqn:Ho;
      [|exists "Open"; split; [compute_done|done]].
    destruct (columns df !! "High") as [h|] eqn:Hh;
      [|exists "High"; split; [compute_done|done]].
    destruct (columns df !! "Low") as [l|] eqn:Hl;
      [|exists "Low"; split; [compute_done|done]].
    destruct (columns df !! "Close") as [c|] eqn:Hc;
      [|exists "Close"; split; [compute_done|done]].
    apply elem_of_ohlc in Hk as [-> | [-> | [-> | ->]]]; congruence.
  - intros Hall k Hk. case_bool_decide as Hkm.
    + subst k. apply draw_absent. simpl. apply lookup_delete_eq.
    + assert (has_column (drop_column k df) metric = true) as Hm'.
      { apply has_column_true. simpl. rewrite lookup_delete_ne by done.
        by apply has_column_true. }
      destruct (Hall "Open") as [o Ho]; [compute_done|].
      destruct (Hall "High") as [h Hh]; [compute_done|].
      destruct (Hall "Low") as [l Hl]; [compute_done|].
      destruct (Hall "Close") as [c Hc]; [compute_done|].
      unfold draw, getitem. rewrite Hm'. simpl.
      apply elem_of_ohlc in Hk as [-> | [-> | [-> | ->]]];
        repeat first
          [ rewrite lookup_delete_eq
          | rewrite lookup_delete_ne by done
          | rewrite Ho | rewrite Hh | rewrite Hl | rewrite Hc
          | progress simpl ];
        reflexivity.
Qed.

(** C4, as the code has it: with the selected metric's column and a
    Volume column both present, a bubble chart is drawn without error
    when every value of the Volume column is a number that is at least
    zero, and its marker sizes are then the Volume column itself; when a
    value is negative, NaN or no number, building the trace raises
    [ValueError].  There is no constant size to fall back on: without a
    Volume column the lookup of ['Volume'] raises [KeyError]. *)
Theorem draw_bubble_volume df ticker metric y :
  columns df !! metric = Some y →
  match columns df !! "Volume" with
  | Some volume =>
      if forallb size_ok volume then
        draw df ticker metric "bubble"
        = Ok (titled_figure
                [Scatter (index df) y "markers" None
                   (Some {| size := Some volume; color := theme.line |})]
                metric ticker)
      else ∃ msg, draw df ticker metric "bubble" = Raise (ValueError msg)
  | None => draw df ticker metric "bubble" = Raise (KeyError "Volume")
  end.
Proof.
  intros Hy. unfold draw, getitem, validate_size.
  rewrite (proj2 (has_column_true df metric)) by (rewrite Hy; eauto).
  simpl. rewrite Hy. simpl.
  destruct (columns df !! "Volume") as [volume|]; simpl; [|reflexivity].
  destruct (forallb size_ok volume); simpl; [reflexivity|by eexists].
Qed.

(** C5, as the code has it: a choropleth never raises and always has an
    empty body (no trace is added for it); its title is the
    "No data available for {metric} of {symbol}" one exactly when the
    selected metric is not a column of the series, and
    "{metric} for {symbol}", with the two axis titles, when it is. *)
Theorem draw_choropleth df ticker metric :
  draw df ticker metric "choropleth"
  = Ok (if has_column df metric
        then titled_figure [] metric ticker
        else no_data_figure metric ticker)
  ∧ ∃ fig, draw df ticker metric "choropleth" = Ok fig ∧ data fig = [].
Proof.
  unfold draw. destruct (has_column df metric); simpl; eauto.
Qed.

Lemma snapshot_only_eq :
  snapshot_only = ["Market Cap"; "PE Ratio"; "Dividend Yield"].
Proof. reflexivity. Qed.

(** C9: over a series whose columns are Open, High, Low, Close and
    Volume, the metrics Market Cap, PE Ratio and Dividend Yield give the
    no-data placeholder under every chart type. *)
Theorem draw_snapshot_only_metric df ticker metric chart_type :
  dom (columns df) = list_to_set ohlcv_columns →
  metric ∈ snapshot_only →
  draw df ticker metric chart_type = Ok (no_data_figure metric ticker).
Proof.
  intros Hdom Hm. apply draw_absent. apply not_elem_of_dom.
  rewrite Hdom. rewrite snapshot_only_eq in Hm.
  repeat (apply elem_of_cons in Hm as [-> | Hm]);
    [| | |by apply elem_of_nil in Hm]; compute_done.
Qed.

(** *** The market-data client *)



(** *** The renderer *)

(** C8, as the code has it: [generate_metric_graph] is no function of
    its arguments alone, since it fetches the series for itself.  What
    determines its chart is the series that fetch returns, with the
    symbol, the metric and the chart type: the rendering is the drawing
    of that series, it leaves the provider and the printed text as its
    fetch left them, and it records itself and that one fetch.  The
    drawing holds at most one trace and is titled
    "{metric} for {symbol}" when the metric is a column of the series and
    "No data available for {metric} of {symbol}" when it is not. *)
Theorem generate_metric_graph_of_fetch
        P ticker metric chart_type start_date end_date (st : state P)
        stock_data m st' :
  get_stock_data P ticker start_date end_date st = (Ok (stock_data, m), st') →
  generate_metric_graph P ticker metric chart_type start_date end_date st
  = (draw stock_data ticker metric chart_type,
     Build_state P (net st')
       (calls st
        ++ [GenerateMetricGraph ticker metric chart_type start_date end_date;
            GetStockData ticker start_date end_date])
       (stdout st'))
  ∧ ∀ fig,
      draw stock_data ticker metric chart_type = Ok fig →
      (length (data fig) ≤ 1)%nat
      ∧ layout fig !! "title"
        = Some (VStr (if has_column stock_data metric
                      then metric ++ " for " ++ ticker
                      else "No data available for " ++ metric
                           ++ " of " ++ ticker)).
Proof.
  intros Hf. split.
  - unfold generate_metric_graph, bind at 1. simpl.
    pose proof (get_stock_data_frame P ticker start_date end_date st
                  (calls st ++ [GenerateMetricGraph ticker metric chart_type
                                  start_date end_date])) as Hframe.
    rewrite Hf in Hframe. simpl in Hframe.
    unfold bind, lift. rewrite Hframe. simpl.
    by rewrite <- app_assoc.
  - intros fig. unfold draw, getitem, validate_size.
    destruct (has_column stock_data metric);
      [|intros [= <-]; split; [simpl; lia|reflexivity]].
    repeat case_bool_decide; simpl;
      repeat match goal with
             | |- context [columns stock_data !! ?k] =>
                 destruct (columns stock_data !! k); simpl
             | |- context [forallb size_ok ?l] =>
                 destruct (forallb size_ok l); simpl
             end;
      intros Hfig; try discriminate Hfig;
      injection Hfig as <-; split; (simpl; lia) || reflexivity.
Qed.

(** *** The callback *)

Lemma new_calls_app P (st st' : state P) cs :
  calls st' = (calls st ++ cs)%list → new_calls st st' = cs.
Proof. intros H. unfold new_calls. rewrite H. apply drop_app_length. Qed.

(** C6: with an empty symbol (or none yet) [update_graphs] returns four
    empty figures and an empty table, and leaves the state as it was:
    no fetch is made. *)
Theorem update_graphs_idle P (ticker : option string) start_date end_date
        args (st : state P) :
  is_falsy ticker = true →
  update_graphs P ticker start_date end_date args st
  = (Ok (Paired [Figure_empty; Figure_empty; Figure_empty; Figure_empty] []),
     st)
  ∧ filter is_fetch
      (new_calls st (update_graphs P ticker start_date end_date args st).2)
    = [].
Proof.
  intros H. unfold update_graphs. rewrite H. unfold ret. simpl.
  split; [reflexivity|].
  rewrite (new_calls_app P st st []); [reflexivity|by rewrite app_nil_r].
Qed.

(** C10: with an empty symbol the output of [update_graphs] is one fixed
    value, four empty figures and an empty table, the same in any two
    runs whatever their dates, panel selections, provider and state. *)
Theorem update_graphs_idle_constant
        P1 P2 (st1 : state P1) (st2 : state P2)
        (ticker1 ticker2 : option string) s1 e1 s2 e2 args1 args2 :
  is_falsy ticker1 = true →
  is_falsy ticker2 = true →
  (update_graphs P1 ticker1 s1 e1 args1 st1).1
  = (update_graphs P2 ticker2 s2 e2 args2 st2).1
  ∧ (update_graphs P1 ticker1 s1 e1 args1 st1).1
    = Ok (Paired (replicate 4 Figure_empty) []).
Proof.
  intros H1 H2. unfold update_graphs. rewrite H1, H2. done.
Qed.


End Properties.

(** * Further properties *)

(** Finds how many reads of [info] a list of queries holds. *)
Ltac count_reads :=
  first [ exists 0%nat; split; [lia|reflexivity]
        | exists 1%nat; split; [lia|reflexivity]
        | exists 2%nat; split; [lia|reflexivity]
        | exists 3%nat; split; [lia|reflexivity]
        | exists 4%nat; split; [lia|reflexivity]
        | exists 5%nat; split; [lia|reflexivity]
        | exists 6%nat; split; [lia|reflexivity]
        | exists 7%nat; split; [lia|reflexivity]
        | exists 8%nat; split; [lia|reflexivity] ].

Section Client.

Context {num : Type} {num_float : Float64 num}.
Implicit Types (P : Provider num) (df : DataFrame num).
Implicit Types (ticker metric chart_type : string) (start_date end_date : date).

(** *** More on the market-data client *)

(** X1: an exception raised while [yf.Ticker] builds the handle is not
    caught: the call stands before the [try].  It leaves
    [get_stock_data] as it is, and nothing is printed. *)
Theorem get_stock_data_ticker_escapes P ticker start_date end_date
        (st : state P) ex w :
  Ticker P ticker (net st) = (Raise ex, w) →
  get_stock_data P ticker start_date end_date st
  = (Raise ex,
     Build_state P w
       (calls st ++ [GetStockData ticker start_date end_date])
       (stdout st)).
Proof.
  intros H. destruct st as [w0 cs out]. simpl in H.
  unfold get_stock_data. unfold_py. rewrite H. reflexivity.
Qed.


(** X3: what one fetch asks of the provider, in order: one handle, then
    at most one history, then at most eight reads of [info]; all eight
    whenever a table with rows comes back.  Observing the provider does
    not change the result. *)
Theorem get_stock_data_queries P ticker start_date end_date
        (st : state (traced P)) :
  let run := get_stock_data (traced P) ticker start_date end_date st in
  (∃ qs,
     (net run.2).2 = ((net st).2 ++ QTicker ticker :: qs)%list
     ∧ (qs = []
        ∨ ∃ k : nat, (k ≤ 8)%nat ∧ qs = QHistory start_date end_date :: replicate k QInfo)
     ∧ (∀ series metrics,
          run.1 = Ok (series, metrics) → index metrics ≠ [] →
          qs = QHistory start_date end_date :: replicate 8 QInfo))
  ∧ run.1
    = (get_stock_data P ticker start_date end_date
         (Build_state P (net st).1 (calls st) (stdout st))).1.
Proof.
  destruct st as [[w q] cs out]. unfold get_stock_data. unfold_py.
  provider_step.
  2:{ split; [|reflexivity]. exists [].
      split; [reflexivity|]. split; [by left|]. intros ? ? [=]. }
  repeat (provider_step;
    try by (split; [|reflexivity];
            rewrite <- ?app_assoc; eexists;
            split; [reflexivity|];
            split; [right; count_reads|];
            intros ? ? [= <- <-] Hne; by destruct Hne)).
  split; [|reflexivity].
  rewrite <- ?app_assoc. eexists. split; [reflexivity|].
  split; [right; count_reads|]. done.
Qed.

End Client.

Section Drawing.

Context {num : Type} {num_float : Float64 num}.
Implicit Types (P : Provider num) (df : DataFrame num).
Implicit Types (ticker metric chart_type : string) (start_date end_date : date).

(** *** More on the drawing *)

Lemma has_column_lookup df name col :
  columns df !! name = Some col → has_column df name = true.
Proof. intros H. apply has_column_true. by rewrite H. Qed.

Lemma has_column_lookup_None df name :
  columns df !! name = None → has_column df name = false.
Proof. apply has_column_false. Qed.

Lemma first_absent_None df names :
  first_absent df names = None ↔ ∀ k, k ∈ names → is_Some (columns df !! k).
Proof.
  unfold first_absent. induction names as [|n names IH]; simpl.
  - split; [|done]. intros _ k Hk. by apply elem_of_nil in Hk.
  - destruct (has_column df n) eqn:Hn; simpl.
    + rewrite IH. split.
      * intros H k Hk. apply elem_of_cons in Hk as [-> | Hk]; [|by apply H].
        by apply has_column_true.
      * intros H k Hk. apply H. by apply elem_of_cons; right.
    + split; [done|]. intros H. apply has_column_false in Hn.
      destruct (H n) as [c Hc]; [by apply elem_of_cons; left|congruence].
Qed.

Lemma first_absent_Some df names k :
  first_absent df names = Some k → k ∈ names ∧ columns df !! k = None.
Proof.
  unfold first_absent. intros H. apply find_some in H as [Hin Hk].
  split; [by apply list_elem_of_In|].
  apply has_column_false. by destruct (has_column df k).
Qed.

(** Every run of [draw] is one of the nine outcomes. *)
Lemma draw_view_holds df ticker metric chart_type :
  draw_view df ticker metric chart_type (draw df ticker metric chart_type).
Proof.
  destruct (columns df !! metric) as [y|] eqn:Hy.
  2:{ rewrite draw_absent by done. by constructor. }
  unfold draw, getitem. rewrite (has_column_lookup _ _ _ Hy).
  case_bool_decide as H1; [subst; simpl; rewrite Hy; by constructor|].
  case_bool_decide as H2; [subst; simpl; rewrite Hy; by constructor|].
  case_bool_decide as H3; [subst; simpl; rewrite Hy; by constructor|].
  case_bool_decide as H4.
  { subst; simpl; rewrite Hy; simpl.
    destruct (columns df !! "Volume") as [volume|] eqn:Hv; simpl;
      [|by econstructor].
    unfold validate_size.
    destruct (forallb size_ok volume) eqn:Hs; simpl; by econstructor. }
  case_bool_decide as H5.
  { subst; simpl.
    destruct (columns df !! "Open") eqn:Ho; simpl;
      [|eapply view_candlestick_error; [done|];
        unfold first_absent; simpl;
        by rewrite (has_column_lookup_None _ _ Ho)].
    destruct (columns df !! "High") eqn:Hh; simpl;
      [|eapply view_candlestick_error; [done|];
        unfold first_absent; simpl;
        by rewrite (has_column_lookup _ _ _ Ho), (has_column_lookup_None _ _ Hh)].
    destruct (columns df !! "Low") eqn:Hl; simpl;
      [|eapply view_candlestick_error; [done|];
        unfold first_absent; simpl;
        by rewrite (has_column_lookup _ _ _ Ho), (has_column_lookup _ _ _ Hh),
             (has_column_lookup_None _ _ Hl)].
    destruct (columns df !! "Close") eqn:Hc; simpl;
      [|eapply view_candlestick_error; [done|];
        unfold first_absent; simpl;
        by rewrite (has_column_lookup _ _ _ Ho), (has_column_lookup _ _ _ Hh),
             (has_column_lookup _ _ _ Hl), (has_column_lookup_None _ _ Hc)].
    by econstructor. }
  simpl. eapply view_other; [done|].
  unfold drawn_chart_types. intros Hin.
  repeat (apply elem_of_cons in Hin as [-> | Hin]); try done.
  by apply elem_of_nil in Hin.
Qed.

Lemma string_length_app (s1 s2 : string) :
  String.length (s1 ++ s2) = String.length s1 + String.length s2.
Proof.
  induction s1 as [|a s1 IH]; [reflexivity|].
  change (S (String.length (s1 ++ s2))
          = S (String.length s1 + String.length s2)).
  by rewrite IH.
Qed.

Lemma titles_differ metric ticker :
  metric ++ " for " ++ ticker
  ≠ "No data available for " ++ metric ++ " of " ++ ticker.
Proof.
  intros H. apply (f_equal String.length) in H.
  rewrite !string_length_app in H. simpl in H. lia.
Qed.

(** X4: the errors of the drawing.  [draw] raises exactly when the
    selected metric is a column and either the chart type is "bubble" and
    the Volume column is missing or holds a value that is no number of at
    least zero, or the chart type is "candlestick" and one of Open, High,
    Low, Close is missing.  The error is the [KeyError] of the Volume
    column, the [ValueError] of the marker size, or the [KeyError] of the
    first missing one of the four. *)
Theorem draw_raises_iff df ticker metric chart_type :
  ((∃ ex, draw df ticker metric chart_type = Raise ex)
   ↔ is_Some (columns df !! metric)
     ∧ ((chart_type = "bubble"
         ∧ (columns df !! "Volume" = None
            ∨ ∃ volume, columns df !! "Volume" = Some volume
                        ∧ forallb size_ok volume = false))
        ∨ (chart_type = "candlestick"
           ∧ ∃ k, first_absent df ohlc = Some k)))
  ∧ ∀ ex,
      draw df ticker metric chart_type = Raise ex →
      (chart_type = "bubble" ∧ columns df !! "Volume" = None
       ∧ ex = KeyError "Volume")
      ∨ (chart_type = "bubble" ∧ is_Some (columns df !! "Volume")
         ∧ ∃ msg, ex = ValueError msg)
      ∨ (chart_type = "candlestick"
         ∧ ∃ k, first_absent df ohlc = Some k ∧ ex = KeyError k).
Proof.
  pose proof (draw_view_holds df ticker metric chart_type) as V.
  split; [split|].
  - intros [ex H']. rewrite H' in V. inversion V; subst; split; eauto 8.
  - intros [[y Hy] [(-> & Hv) | (-> & k & Hk)]];
      inversion V
        as [ | | | | ? volume ? Hvol Hok | | ? volume ? ? Hvol Hbad
           | ? o h l c ? Ho Hh Hl Hc | ? k' ? Hk' | ? ? ? Hnot];
      subst; try congruence; try (by eexists).
    + destruct Hv as [Hv | (volume' & Hv & Hbad)]; congruence.
    + exfalso. apply Hnot. compute_done.
    + exfalso. apply first_absent_Some in Hk as [Hin Hnone].
      apply elem_of_ohlc in Hin as [-> | [-> | [-> | ->]]]; congruence.
    + exfalso. apply Hnot. compute_done.
  - intros ex H'. rewrite H' in V. inversion V; subst; eauto 10.
Qed.

(** X5: what every figure has.  A figure that [draw] returns holds at
    most one trace, has the height 400 and the three colours of the
    theme, and carries a title. *)
Theorem draw_figure_invariants df ticker metric chart_type fig :
  draw df ticker metric chart_type = Ok fig →
  (length (data fig) ≤ 1)%nat
  ∧ layout fig !! "height" = Some (VInt 400)
  ∧ layout fig !! "plot_bgcolor" = Some (VStr theme.plot_bg)
  ∧ layout fig !! "paper_bgcolor" = Some (VStr theme.background)
  ∧ layout fig !! "font_color" = Some (VStr theme.text)
  ∧ ∃ title, layout fig !! "title" = Some (VStr title).
Proof.
  intros H. pose proof (draw_view_holds df ticker metric chart_type) as V.
  rewrite H in V.
  inversion V; subst; simpl;
    (split; [lia|]); repeat (split; [reflexivity|]); eexists; reflexivity.
Qed.

(** X6: the title tells whether there was data: the title of a returned
    figure is the "No data available for ..." one exactly when the
    selected metric is no column of the series. *)
Theorem draw_title_tells df ticker metric chart_type fig :
  draw df ticker metric chart_type = Ok fig →
  (layout fig !! "title"
   = Some (VStr ("No data available for " ++ metric ++ " of " ++ ticker))
   ↔ columns df !! metric = None).
Proof.
  intros H. pose proof (draw_view_holds df ticker metric chart_type) as V.
  rewrite H in V.
  assert (∀ ts, layout (titled_figure (num := num) ts metric ticker) !! "title"
                = Some (VStr (metric ++ " for " ++ ticker))) as Ht
    by reflexivity.
  inversion V; subst; rewrite ?Ht;
    try (split; [intros [= Heq]; by apply titles_differ in Heq|congruence]).
  split; [done|reflexivity].
Qed.

(** X7: a chart type without a branch ("choropleth", or any other text)
    never raises and draws no trace: the figure is the titled, empty one
    when the metric is a column, and the placeholder when it is not. *)
Theorem draw_unknown_chart_type df ticker metric chart_type :
  chart_type ∉ drawn_chart_types →
  draw df ticker metric chart_type
  = Ok (if has_column df metric
        then titled_figure [] metric ticker
        else no_data_figure metric ticker).
Proof.
  intros Hnot. pose proof (draw_view_holds df ticker metric chart_type) as V.
  inversion V
    as [? Hy| ? Hy| ? Hy| ? Hy| ? ? Hy| ? Hy| ? ? ? Hy| ? ? ? ? ? Hy| ? ? Hy| ? ? Hy];
    subst;
    try (exfalso; apply Hnot; compute_done).
  - by rewrite (has_column_lookup_None _ _ Hy).
  - by rewrite (has_column_lookup _ _ _ Hy).
Qed.

(** X8: line, bar and scatter charts.  When the metric is a column, each
    of the three draws exactly one trace, with the index of the series as
    x and that column as y, and cannot raise. *)
Theorem draw_simple_charts df ticker metric y :
  columns df !! metric = Some y →
  draw df ticker metric "lines"
  = Ok (titled_figure [Scatter (index df) y "lines" (Some theme.line) None]
          metric ticker)
  ∧ draw df ticker metric "bars"
    = Ok (titled_figure [Bar (index df) y theme.line] metric ticker)
  ∧ draw df ticker metric "markers"
    = Ok (titled_figure
            [Scatter (index df) y "markers" None
               (Some {| size := None; color := theme.line |})]
            metric ticker).
Proof.
  intros Hy. unfold draw, getitem. rewrite (has_column_lookup _ _ _ Hy).
  simpl. rewrite Hy. done.
Qed.

(** X9: a candlestick does not show the selected metric.  For two
    metrics that are both columns of the series, the candlesticks have
    the same traces (or raise the same error): the selection only changes
    the title and the label of the y axis. *)
Theorem draw_candlestick_ignores_metric df ticker metric1 metric2 :
  is_Some (columns df !! metric1) →
  is_Some (columns df !! metric2) →
  match draw df ticker metric1 "candlestick",
        draw df ticker metric2 "candlestick" with
  | Ok fig1, Ok fig2 => data fig1 = data fig2
  | Raise ex1, Raise ex2 => ex1 = ex2
  | _, _ => False
  end.
Proof.
  intros [y1 H1] [y2 H2]. unfold draw, getitem.
  rewrite (has_column_lookup _ _ _ H1), (has_column_lookup _ _ _ H2). simpl.
  destruct (columns df !! "Open"); simpl; [|done].
  destruct (columns df !! "High"); simpl; [|done].
  destruct (columns df !! "Low"); simpl; [|done].
  destruct (columns df !! "Close"); simpl; done.
Qed.

(** X10: over a series that has the five columns Open, High, Low, Close
    and Volume, the one selection that can make [draw] raise is a bubble
    chart of a metric that is a column, and it raises exactly when the
    Volume column holds a value that is no number of at least zero; with
    sizes that are all valid, nothing raises. *)
Theorem draw_complete_series df ticker metric chart_type volume :
  (∀ k, k ∈ ohlcv_columns → is_Some (columns df !! k)) →
  columns df !! "Volume" = Some volume →
  (∃ ex, draw df ticker metric chart_type = Raise ex)
  ↔ (chart_type = "bubble" ∧ is_Some (columns df !! metric)
     ∧ forallb size_ok volume = false).
Proof.
  intros Hall Hvol.
  pose proof (draw_view_holds df ticker metric chart_type) as V. split.
  - intros [ex H']. rewrite H' in V.
    inversion V as [ | | | | | ? Hy Hv | ? volume' ? Hy Hv Hbad | | ? k ? Hk | ];
      subst.
    + congruence.
    + rewrite Hvol in Hv. injection Hv as <-. eauto.
    + exfalso. apply first_absent_Some in Hk as [Hin Hnone].
      destruct (Hall k) as [c Hc]; [|congruence].
      apply elem_of_ohlc in Hin as [-> | [-> | [-> | ->]]]; compute_done.
  - intros (-> & [y Hy] & Hbad).
    inversion V as [ | | | | ? volume' ? Hv Hok | | | | | ? ? ? Hnot]; subst;
      try congruence; try (by eexists).
    exfalso. apply Hnot. compute_done.
Qed.

End Drawing.

Section Callback.

Context {num : Type} {num_float : Float64 num}.
Implicit Types (P : Provider num) (df : DataFrame num).
Implicit Types (ticker metric chart_type : string) (start_date end_date : date).

(** *** More on the renderer and the callback *)

(** The state in which a rendering starts its fetch. *)
Lemma generate_metric_graph_unfold P ticker metric chart_type
      start_date end_date (st : state P) :
  generate_metric_graph P ticker metric chart_type start_date end_date st
  = match get_stock_data P ticker start_date end_date
            (Build_state P (net st)
               (calls st ++ [GenerateMetricGraph ticker metric chart_type
                               start_date end_date])
               (stdout st)) with
    | (Ok (stock_data, _), st') =>
        (draw stock_data ticker metric chart_type, st')
    | (Raise ex, st') => (Raise ex, st')
    end.
Proof.
  unfold generate_metric_graph, bind at 1. simpl. unfold bind, lift.
  destruct (get_stock_data P ticker start_date end_date _)
    as [[[stock_data m]|ex] st']; reflexivity.
Qed.




Lemma update_graphs_populated P ticker start_date end_date args (st : state P) :
  ticker ≠ "" →
  update_graphs P (Some ticker) start_date end_date args st
  = bind P
      (comprehension P
         (λ i,
            bind P (lift P (tuple_item (take 4 args) i))
              (λ metric,
                 bind P (lift P (tuple_item (drop 4 args) i))
                   (λ chart_type,
                      generate_metric_graph P ticker metric chart_type
                        start_date end_date)))
         (seq 0 4))
      (λ figures,
         bind P (get_stock_data P ticker start_date end_date)
           (λ '(_, metrics_df),
              ret P (Chained figures (to_dict_records metrics_df))))
      st.
Proof.
  intros Hne. unfold update_graphs, is_falsy.
  by rewrite bool_decide_eq_false_2.
Qed.

(** X12: an exception of [yf.Ticker] leaves the callback.  When the
    handle cannot be built, [update_graphs] raises that exception from
    its first rendering: one fetch was started, nothing is printed and no
    output is produced. *)
Theorem update_graphs_ticker_escapes P ticker start_date end_date
        m0 m1 m2 m3 c0 rest (st : state P) ex w :
  ticker ≠ "" →
  Ticker P ticker (net st) = (Raise ex, w) →
  update_graphs P (Some ticker) start_date end_date
    (m0 :: m1 :: m2 :: m3 :: c0 :: rest) st
  = (Raise ex,
     Build_state P w
       (calls st
        ++ [GenerateMetricGraph ticker m0 c0 start_date end_date;
            GetStockData ticker start_date end_date])
       (stdout st)).
Proof.
  intros Hne Ht. rewrite update_graphs_populated by done.
  simpl. unfold bind, lift, tuple_item. simpl.
  rewrite generate_metric_graph_unfold.
  destruct st as [w0 cs out]. simpl in *.
  unfold get_stock_data. unfold_py. rewrite Ht. simpl.
  by rewrite <- app_assoc.
Qed.

(** X13: with at most four values after the dates, [update_graphs]
    raises [IndexError] at once: the chart type of the first panel is
    looked up before anything is fetched. *)
Theorem update_graphs_few_args P ticker start_date end_date args
        (st : state P) :
  ticker ≠ "" →
  (length args ≤ 4)%nat →
  update_graphs P (Some ticker) start_date end_date args st
  = (Raise (IndexError "tuple index out of range"), st).
Proof.
  intros Hne Hlen. rewrite update_graphs_populated by done.
  destruct args as [|a0 [|a1 [|a2 [|a3 [|a4 args]]]]]; simpl in Hlen;
    try lia; reflexivity.
Qed.

(** Case analysis on the next rendering of the goal. *)
Ltac render_step :=
  match goal with
  | |- context [generate_metric_graph ?P ?t ?m ?c ?s ?e ?st] =>
      let H := fresh "Hcalls" in
      pose proof (generate_metric_graph_calls P t m c s e st) as H;
      destruct (generate_metric_graph P t m c s e st) as [[?|?] ?];
      simpl in H; simpl
  end.

(** X14: with fewer than eight values after the dates, [update_graphs]
    never returns: a panel's metric or chart type is missing, and the
    lookup raises if nothing raised before. *)
Theorem update_graphs_short_args P ticker start_date end_date args
        (st : state P) out st' :
  ticker ≠ "" →
  (length args < 8)%nat →
  update_graphs P (Some ticker) start_date end_date args st ≠ (Ok out, st').
Proof.
  intros Hne Hlen. rewrite update_graphs_populated by done.
  destruct args as [|a0 [|a1 [|a2 [|a3 [|a4 [|a5 [|a6 [|a7 args]]]]]]]];
    simpl in Hlen; try lia;
    simpl; unfold bind, lift, tuple_item; simpl;
    repeat render_step; discriminate.
Qed.

(** X15: values beyond the eighth are never read: a call with more
    values behaves as the call with the first eight. *)
Theorem update_graphs_extra_args P (ticker : option string)
        start_date end_date args extra (st : state P) :
  length args = 8%nat →
  update_graphs P ticker start_date end_date (args ++ extra) st
  = update_graphs P ticker start_date end_date args st.
Proof.
  intros Hlen.
  destruct args as [|a0 [|a1 [|a2 [|a3 [|a4 [|a5 [|a6 [|a7 [|a8 args]]]]]]]]];
    try discriminate Hlen.
  unfold update_graphs. destruct (is_falsy ticker); reflexivity.
Qed.



Lemma comprehension_length {A B} P (f : A → Py P B) l (st : state P) bs st' :
  comprehension P f l st = (Ok bs, st') → length bs = length l.
Proof.
  revert st bs st'. induction l as [|a l IH]; intros st bs st' H; simpl in H.
  - unfold ret in H. by injection H as <- _.
  - unfold bind, ret in H.
    destruct (f a st) as [[b|ex] st1]; [|discriminate].
    destruct (comprehension P f l st1) as [[bs'|ex] st2] eqn:Hrec;
      [|discriminate].
    injection H as <- _. simpl. f_equal. eauto.
Qed.

(** X18: the shape of the return against the declaration.  The callback
    declares five outputs.  A return of [update_graphs] hands Dash five
    values exactly when the symbol was not empty; the return for an
    empty symbol is a pair, of two values. *)
Theorem update_graphs_arity P (ticker : option string)
        start_date end_date args (st : state P) out st' :
  update_graphs P ticker start_date end_date args st = (Ok out, st') →
  arity out = (if is_falsy ticker then 2 else length callback_outputs)
  ∧ (arity out = length callback_outputs ↔ is_falsy ticker = false).
Proof.
  intros H.
  assert (arity out = if is_falsy ticker then 2 else length callback_outputs)
    as Ha.
  { unfold update_graphs in H. destruct (is_falsy ticker).
    - unfold ret in H. by injection H as <- _.
    - unfold bind at 1 in H.
      destruct (comprehension P _ (seq 0 4) st) as [[figs|ex] st1] eqn:Hc;
        [|discriminate].
      apply comprehension_length in Hc.
      unfold bind, ret in H.
      destruct (get_stock_data P _ _ _ st1) as [[[hist m]|ex] st2];
        [|discriminate].
      injection H as <- _. simpl. rewrite Hc. reflexivity. }
  split; [exact Ha|]. rewrite Ha.
  destruct (is_falsy ticker); [|done]. split; [|done]. discriminate.
Qed.

Lemma answers_fetch P ticker start_date end_date df (st : state P) :
  answers P ticker start_date end_date df →
  ∃ metrics st',
    get_stock_data P ticker start_date end_date st = (Ok (df, metrics), st')
    ∧ length (to_dict_records metrics) = 8%nat.
Proof.
  intros [Hh Hi]. destruct st as [w0 cs out].
  unfold get_stock_data. unfold_py.
  destruct (Hh w0) as (h & w1 & w2 & -> & Hhist). simpl.
  rewrite Hhist. simpl.
  repeat match goal with
         | |- context [info P ?h ?w] =>
             let H := fresh in
             destruct (Hi h w) as (? & ? & H); rewrite H; simpl
         end.
  eexists _, _. split; [reflexivity|].
  unfold to_dict_records. by rewrite length_fmap, length_seq.
Qed.

Lemma answers_render P ticker metric chart_type start_date end_date df
      (st : state P) :
  answers P ticker start_date end_date df →
  ∃ st',
    generate_metric_graph P ticker metric chart_type start_date end_date st
    = (draw df ticker metric chart_type, st').
Proof.
  intros Ha. rewrite generate_metric_graph_unfold.
  destruct (answers_fetch P ticker start_date end_date df
              (Build_state P (net st)
                 (calls st ++ [GenerateMetricGraph ticker metric chart_type
                                 start_date end_date])
                 (stdout st)) Ha) as (m & st' & -> & _).
  by eexists.
Qed.

(** X19: what the panels show.  Over a provider that answers with the
    series [df], the figures of the callback are the drawings of [df]
    under each panel's own metric and chart type, in the order of the
    panels, beside a table of eight rows; and the first drawing that
    raises ends the callback with its error. *)
Theorem update_graphs_answers P ticker start_date end_date df
        m0 m1 m2 m3 c0 c1 c2 c3 (st : state P) :
  ticker ≠ "" →
  answers P ticker start_date end_date df →
  ∃ table,
    length table = 8%nat
    ∧ (update_graphs P (Some ticker) start_date end_date
         [m0; m1; m2; m3; c0; c1; c2; c3] st).1
      = match all_ok [ draw df ticker m0 c0; draw df ticker m1 c1;
                       draw df ticker m2 c2; draw df ticker m3 c3 ] with
        | Ok figures => Ok (Chained figures table)
        | Raise ex => Raise ex
        end.
Proof.
  intros Hne Ha. rewrite update_graphs_populated by done.
  simpl. unfold bind, lift, tuple_item, ret. simpl.
  assert (∃ table : list (gmap string (value num)), length table = 8%nat)
    as [table0 Htable0] by (by exists (replicate 8 ∅)).
  destruct (answers_render P ticker m0 c0 _ _ df st Ha) as [st1 ->].
  destruct (draw df ticker m0 c0) as [f0|ex]; simpl; [|by exists table0].
  destruct (answers_render P ticker m1 c1 _ _ df st1 Ha) as [st2 ->].
  destruct (draw df ticker m1 c1) as [f1|ex]; simpl; [|by exists table0].
  destruct (answers_render P ticker m2 c2 _ _ df st2 Ha) as [st3 ->].
  destruct (draw df ticker m2 c2) as [f2|ex]; simpl; [|by exists table0].
  destruct (answers_render P ticker m3 c3 _ _ df st3 Ha) as [st4 ->].
  destruct (draw df ticker m3 c3) as [f3|ex]; simpl; [|by exists table0].
  destruct (answers_fetch P ticker start_date end_date df st4 Ha)
    as (metrics & st5 & -> & Hlen).
  simpl. by exists (to_dict_records metrics).
Qed.

End Callback.

Section Page.

Context {num : Type} {num_float : Float64 num}.
Implicit Types (P : Provider num) (df : DataFrame num).
Implicit Types (ticker metric chart_type : string) (start_date end_date : date).

(** *** The page and the callback's declaration *)

(** X20: the ids of the page are pairwise distinct, and every [Input]
    and [Output] of the callback names a component of the page that has
    the property asked for. *)
Theorem app_layout_wiring :
  NoDup (component_ids app_layout)
  ∧ Forall (λ dep, resolves app_layout dep = true)
      (callback_inputs ++ callback_outputs)%list.
Proof.
  split; [compute_done|].
  apply Forall_forall. intros dep Hin. apply list_elem_of_In in Hin.
  revert dep Hin. apply forallb_forall. vm_compute. reflexivity.
Qed.

(** X21: which dropdown a panel reads.  Whatever values the inputs
    hold, the values Dash passes after the symbol and the two dates are
    sliced so that panel [i] gets the value of [metric-dropdown-i] as its
    metric and the value of [chart-type-dropdown-i] as its chart type. *)
Theorem callback_inputs_alignment (v : string * string → string) (i : nat) :
  (i < 4)%nat →
  let args := v <$> drop 3 callback_inputs in
  length args = 8%nat
  ∧ tuple_item (take 4 args) i
    = Ok (v ("metric-dropdown-" ++ pretty i, "value"))
  ∧ tuple_item (drop 4 args) i
    = Ok (v ("chart-type-dropdown-" ++ pretty i, "value")).
Proof.
  intros Hi. destruct i as [|[|[|[|i]]]]; try lia; done.
Qed.

(** X22: every dropdown of the page starts on one of its own options. *)
Theorem app_layout_dropdown_defaults :
  Forall
    (λ kp : string * props,
       kp.1 = "Dropdown" →
       ∃ initial,
         c_value kp.2 = Some initial ∧ initial ∈ (snd <$> c_options kp.2))
    (components app_layout).
Proof.
  set (check := λ kp : string * props,
         if bool_decide (kp.1 = "Dropdown") then
           match c_value kp.2 with
           | Some initial => bool_decide (initial ∈ (snd <$> c_options kp.2))
           | None => false
           end
         else true).
  assert (forallb check (components app_layout) = true) as Hall
    by (vm_compute; reflexivity).
  apply Forall_forall. intros kp Hin Hk. apply list_elem_of_In in Hin.
  pose proof (proj1 (forallb_forall check _) Hall kp Hin) as Hc.
  unfold check in Hc. rewrite bool_decide_eq_true_2 in Hc by done.
  destruct (c_value kp.2) as [initial|]; [|discriminate Hc].
  exists initial. split; [reflexivity|]. by apply bool_decide_eq_true in Hc.
Qed.

Lemma get_stock_data_table P ticker start_date end_date (st : state P)
      hist metrics st' :
  get_stock_data P ticker start_date end_date st = (Ok (hist, metrics), st') →
  metrics = DataFrame_empty
  ∨ ∃ items,
      metrics = DataFrame_of_items items "Metric" "Value"
      ∧ items.*1 = canonical_keys.
Proof.
  destruct st as [w0 cs out]. unfold get_stock_data. unfold_py.
  repeat (provider_step; try by (intros [= <- <- <-]; left));
    try discriminate.
  intros [= <- <- <-]. right. eexists. split; reflexivity.
Qed.

(** X23: the records handed to the table carry the columns the table
    declares.  Every record of the table that a fetch returns has exactly
    the keys "Metric" and "Value", the column ids of the [DataTable] of
    the page. *)
Theorem get_stock_data_records_match_table P ticker start_date end_date
        (st : state P) hist metrics st' kind p :
  get_stock_data P ticker start_date end_date st = (Ok (hist, metrics), st') →
  find_component app_layout "stock-metrics" = Some (kind, p) →
  Forall (λ r : gmap string (value num), dom r = list_to_set (c_columns p))
    (to_dict_records metrics).
Proof.
  intros Hrun Hfind. vm_compute in Hfind. injection Hfind as <- <-.
  apply get_stock_data_table in Hrun as [-> | (items & -> & _)].
  - constructor.
  - rewrite to_dict_records_of_items by done.
    apply Forall_forall. intros r Hr.
    apply elem_of_lookup_zip_with_1 in Hr as (i & k & x & -> & _ & _).
    simpl. rewrite !dom_insert_L, dom_empty_L. set_solver.
Qed.

End Page.

(** *** The default dates *)
Module datetime_facts.

Import datetime.
Local Open Scope Z_scope.

Lemma is_leap_pred (y : Z) : is_leap y = true → is_leap (y - 1) = false.
Proof.
  unfold is_leap. intros H.
  apply andb_true_iff in H as [H4 _]. apply Z.eqb_eq in H4.
  apply andb_false_iff. left. apply Z.eqb_neq.
  intros H4'. Z.div_mod_to_equations. lia.
Qed.

Lemma days_in_month_pred (y m d : Z) :
  d ≤ days_in_month y m → ¬ (m = 2 ∧ d = 29) → d ≤ days_in_month (y - 1) m.
Proof.
  unfold days_in_month. intros Hd Hnot.
  destruct (m =? 2) eqn:Hm; [|done].
  apply Z.eqb_eq in Hm.
  destruct (is_leap y), (is_leap (y - 1)); lia.
Qed.

Lemma valid_fields (d : t) :
  valid d = true →
  1 ≤ year d ≤ 9999 ∧ 1 ≤ month d ≤ 12
  ∧ 1 ≤ day d ≤ days_in_month (year d) (month d)
  ∧ 0 ≤ microsecond_of_day d < 86400000000.
Proof.
  unfold valid, year_ok, day_ok. rewrite !andb_true_iff.
  rewrite !Z.leb_le, Z.ltb_lt. tauto.
Qed.

(** X24: the page cannot be built on a leap day.  With both readings of
    the clock in the same year, the default start date
    [now.replace(year=now.year - 1)] raises [ValueError] exactly when
    today is the 29th of February. *)
Theorem default_start_date_leap_day (now1 now2 : t) :
  valid now1 = true →
  year now2 = year now1 →
  2 ≤ year now1 →
  (∃ msg, default_start_date now1 now2 = ValueError msg)
  ↔ (month now1 = 2 ∧ day now1 = 29).
Proof.
  intros Hv Hy H2. apply valid_fields in Hv as (Hyr & Hm & Hd & Hus).
  unfold default_start_date, replace_year. rewrite Hy.
  assert (year_ok (year now1 - 1) = true) as ->.
  { unfold year_ok. apply andb_true_iff. rewrite !Z.leb_le. lia. }
  simpl. split.
  - intros [msg H].
    destruct (day_ok (year now1 - 1) (month now1) (day now1)) eqn:Hok;
      [discriminate H|].
    destruct (decide (month now1 = 2 ∧ day now1 = 29)) as [|Hnot]; [done|].
    exfalso. unfold day_ok in Hok. apply andb_false_iff in Hok as [Hok|Hok].
    + apply Z.leb_gt in Hok. lia.
    + apply Z.leb_gt in Hok.
      pose proof (days_in_month_pred _ _ _ (proj2 Hd) Hnot). lia.
  - intros [Hm2 Hd29].
    assert (is_leap (year now1) = true) as Hleap.
    { destruct Hd as [_ Hd]. unfold days_in_month in Hd.
      rewrite Hm2 in Hd. simpl in Hd.
      destruct (is_leap (year now1)); [done|lia]. }
    apply is_leap_pred in Hleap.
    unfold day_ok, days_in_month. rewrite Hm2, Hd29, Hleap. simpl.
    by eexists.
Qed.

(** X25: on every other day the default start date is the same day and
    time of the year before: a valid date, strictly before the reading it
    was made from, so the default range is never reversed. *)
Theorem default_start_date_year_before (now : t) :
  valid now = true →
  2 ≤ year now →
  ¬ (month now = 2 ∧ day now = 29) →
  ∃ d,
    default_start_date now now = Value d
    ∧ year d = year now - 1 ∧ month d = month now ∧ day d = day now
    ∧ microsecond_of_day d = microsecond_of_day now
    ∧ valid d = true
    ∧ ltb d now = true.
Proof.
  intros Hv H2 Hnot. pose proof (valid_fields _ Hv) as (Hyr & Hm & Hd & Hus).
  unfold default_start_date, replace_year.
  assert (year_ok (year now - 1) = true) as Hyok.
  { unfold year_ok. apply andb_true_iff. rewrite !Z.leb_le. lia. }
  assert (day_ok (year now - 1) (month now) (day now) = true) as Hdok.
  { unfold day_ok. apply andb_true_iff. rewrite !Z.leb_le.
    split; [lia|]. apply days_in_month_pred; [apply Hd|exact Hnot]. }
  rewrite Hyok, Hdok. simpl. eexists. split; [reflexivity|]. simpl.
  repeat (split; [reflexivity|]). split.
  - unfold valid. simpl. rewrite Hyok, Hdok. simpl.
    rewrite !andb_true_iff, !Z.leb_le, Z.ltb_lt. lia.
  - unfold ltb. simpl.
    destruct (year now - 1 =? year now) eqn:He.
    + apply Z.eqb_eq in He. lia.
    + apply Z.ltb_lt. lia.
Qed.

End datetime_facts.

(** * The theorems at sample inputs, and the inputs on which the code
    departs from the specification *)

Import Samples.



Example get_stock_data_offline_run :
  get_stock_data offline "XYZ" jan dec (fresh offline ())
  = (Ok (DataFrame_empty, DataFrame_empty),
     Build_state offline () [GetStockData "XYZ" jan dec]
       ["Error fetching data for XYZ: No data found"]).
Proof. reflexivity. Qed.



Example update_graphs_five_fetches :
  filter is_fetch
    (calls (update_graphs steady (Some "XYZ") jan dec panels
              (fresh steady ())).2)
  = replicate 5 (GetStockData "XYZ" jan dec).
Proof. vm_compute. reflexivity. Qed.

(** [draw_candlestick_columns] on the five-column sample series: with High
    taken away the candlestick raises, with Close (the selected metric)
    taken away it is the placeholder. *)
Lemma draw_candlestick_columns_ohlcv :
  has_column ohlcv "Close" = true
  ∧ draw (drop_column "High" ohlcv) "XYZ" "Close" "candlestick"
    = Raise (KeyError "High")
  ∧ draw (drop_column "Close" ohlcv) "XYZ" "Close" "candlestick"
    = Ok (no_data_figure "Close" "XYZ").
Proof.
  assert (∀ k, k ∈ ohlc → is_Some (columns ohlcv !! k)) as Hall.
  { intros k Hk.
    apply elem_of_ohlc in Hk as [-> | [-> | [-> | ->]]]; vm_compute; eauto. }
  split; [reflexivity|]. split.
  - exact (proj2 (draw_candlestick_columns ohlcv "XYZ" "Close" eq_refl)
             Hall "High" ltac:(compute_done)).
  - exact (proj2 (draw_candlestick_columns ohlcv "XYZ" "Close" eq_refl)
             Hall "Close" ltac:(compute_done)).
Defined.

(** C3 fails: the sample series without its High column is not empty and
    still has the selected Close column, yet the candlestick over it is
    not the placeholder. *)
Lemma draw_candlestick_not_placeholder :
  index (drop_column "High" ohlcv) ≠ []
  ∧ has_column (drop_column "High" ohlcv) "Close" = true
  ∧ columns (drop_column "High" ohlcv) !! "High" = None
  ∧ ¬ (draw (drop_column "High" ohlcv) "XYZ" "Close" "candlestick"
       = Ok (no_data_figure "Close" "XYZ")).
Proof.
  split; [discriminate|]. split; [reflexivity|]. split; [reflexivity|].
  vm_compute. discriminate.
Qed.

Example draw_candlestick_without_high :
  draw (drop_column "High" ohlcv) "XYZ" "Close" "candlestick"
  = Raise (KeyError "High").
Proof. reflexivity. Qed.

(** [draw_bubble_volume] on the sample series. *)
Lemma draw_bubble_volume_ohlcv :
  columns ohlcv !! "Close" = Some (px [11; 12]%Z)
  ∧ draw ohlcv "XYZ" "Close" "bubble"
    = Ok (titled_figure
            [Scatter days (px [11; 12]%Z) "markers" None
               (Some {| size := Some [VInt 100; VInt 200];
                        color := theme.line |})]
            "Close" "XYZ").
Proof.
  split; [reflexivity|].
  exact (draw_bubble_volume ohlcv "XYZ" "Close" (px [11; 12]%Z) eq_refl).
Defined.

(** C4 fails: over a series with a Close column and no Volume column the
    bubble chart raises. *)
Lemma draw_bubble_raises :
  has_column close_only "Close" = true
  ∧ columns close_only !! "Volume" = None
  ∧ ¬ (∃ fig, draw close_only "XYZ" "Close" "bubble" = Ok fig).
Proof.
  split; [reflexivity|]. split; [reflexivity|].
  intros [fig H]. vm_compute in H. discriminate H.
Qed.

Example draw_bubble_negative_volume :
  ∃ msg,
    draw MoreSamples.bad_volume "XYZ" "Close" "bubble" = Raise (ValueError msg).
Proof. eexists. reflexivity. Qed.

Example draw_bubble_close_only :
  draw close_only "XYZ" "Close" "bubble" = Raise (KeyError "Volume").
Proof. reflexivity. Qed.

(** C5 fails: over a series that has the Close column, the choropleth of
    Close is titled "Close for XYZ", not "No data available ...". *)
Lemma draw_choropleth_not_placeholder :
  ¬ (∃ fig,
       draw ohlcv "XYZ" "Close" "choropleth" = Ok fig
       ∧ layout fig !! "title"
         = Some (VStr "No data available for Close of XYZ")).
Proof.
  intros (fig & Hfig & Htitle).
  vm_compute in Hfig. injection Hfig as <-.
  vm_compute in Htitle. discriminate Htitle.
Qed.

Example draw_choropleth_title :
  ∃ fig,
    draw ohlcv "XYZ" "Close" "choropleth" = Ok fig
    ∧ data fig = []
    ∧ layout fig !! "title" = Some (VStr "Close for XYZ").
Proof. eexists. split; [reflexivity|]. split; reflexivity. Qed.

(** [update_graphs_idle] on the empty symbol. *)
Lemma update_graphs_idle_empty_symbol :
  is_falsy (Some "") = true
  ∧ update_graphs steady (Some "") jan dec panels (fresh steady ())
    = (Ok (Paired [Figure_empty; Figure_empty; Figure_empty; Figure_empty] []),
       fresh steady ())
  ∧ filter is_fetch
      (new_calls (fresh steady ())
         (update_graphs steady (Some "") jan dec panels (fresh steady ())).2)
    = [].
Proof.
  split; [reflexivity|].
  exact (update_graphs_idle steady (Some "") jan dec panels (fresh steady ())
           eq_refl).
Defined.



Example get_stock_data_reversed_range_dated :
  ∃ metrics,
    get_stock_data MoreSamples.dated "XYZ" dec jan (fresh MoreSamples.dated ())
    = (Ok (MoreSamples.no_rows, metrics),
       Build_state MoreSamples.dated () [GetStockData "XYZ" dec jan] [])
    ∧ length (to_dict_records metrics) = 8.
Proof. eexists. split; vm_compute; reflexivity. Qed.

(** [generate_metric_graph_of_fetch] on the sample series. *)
Lemma generate_metric_graph_of_fetch_steady :
  ∃ m st',
    get_stock_data steady "XYZ" jan dec (fresh steady ()) = (Ok (ohlcv, m), st')
    ∧ generate_metric_graph steady "XYZ" "Close" "candlestick" jan dec
        (fresh steady ())
      = (draw ohlcv "XYZ" "Close" "candlestick",
         Build_state steady (net st')
           [GenerateMetricGraph "XYZ" "Close" "candlestick" jan dec;
            GetStockData "XYZ" jan dec]
           (stdout st')).
Proof.
  assert (∃ m st',
            get_stock_data steady "XYZ" jan dec (fresh steady ())
            = (Ok (ohlcv, m), st')) as (m & st' & Hrun)
    by (eexists _, _; vm_compute; reflexivity).
  exists m, st'. split; [exact Hrun|].
  exact (proj1 (generate_metric_graph_of_fetch steady "XYZ" "Close"
                  "candlestick" jan dec (fresh steady ()) ohlcv m st' Hrun)).
Defined.

(** C8 fails: the renderer fetches for itself, so its chart depends on
    what the provider holds at the moment.  Over a provider of live
    data, two calls with the same symbol, metric, chart type and dates,
    one right after the other, give different charts. *)
Lemma generate_metric_graph_not_pure :
  ¬ ((generate_metric_graph MoreSamples.live "XYZ" "Close" "lines" jan dec
        (fresh MoreSamples.live 0)).1
     = (generate_metric_graph MoreSamples.live "XYZ" "Close" "lines" jan dec
          (generate_metric_graph MoreSamples.live "XYZ" "Close" "lines"
             jan dec (fresh MoreSamples.live 0)).2).1).
Proof. vm_compute. discriminate. Qed.

(** [draw_snapshot_only_metric] on the sample series. *)
Lemma draw_snapshot_only_metric_ohlcv :
  dom (columns ohlcv) = list_to_set ohlcv_columns
  ∧ "PE Ratio" ∈ snapshot_only
  ∧ draw ohlcv "XYZ" "PE Ratio" "candlestick"
    = Ok (no_data_figure "PE Ratio" "XYZ").
Proof.
  assert (dom (columns ohlcv) = list_to_set (C := gset string) ohlcv_columns)
    as Hdom.
  { vm_compute. reflexivity. }
  assert ("PE Ratio" ∈ snapshot_only) as Hin by compute_done.
  split; [exact Hdom|]. split; [exact Hin|].
  exact (draw_snapshot_only_metric ohlcv "XYZ" "PE Ratio" "candlestick"
           Hdom Hin).
Defined.

(** [update_graphs_idle_constant] on two idle runs that share nothing
    else. *)
Lemma update_graphs_idle_constant_samples :
  is_falsy None = true
  ∧ is_falsy (Some "") = true
  ∧ (update_graphs steady None jan dec panels (fresh steady ())).1
    = (update_graphs offline (Some "") dec jan [] (fresh offline ())).1.
Proof.
  split; [reflexivity|]. split; [reflexivity|].
  exact (proj1 (update_graphs_idle_constant steady offline
                  (fresh steady ()) (fresh offline ())
                  None (Some "") jan dec dec jan panels [] eq_refl eq_refl)).
Defined.

(** The table of a successful fetch: the provider's entries where it has
    them, ["N/A"] elsewhere. *)
Example get_stock_data_steady_table :
  ∃ st',
    get_stock_data steady "XYZ" jan dec (fresh steady ())
    = (Ok (ohlcv,
           DataFrame_of_items
             [ ("Open", VFloat 10%Z);
               ("Close", VStr "N/A");
               ("High", VStr "N/A");
               ("Low", VStr "N/A");
               ("Volume", VInt 200);
               ("Market Cap", VStr "N/A");
               ("PE Ratio", VStr "N/A");
               ("Dividend Yield", VStr "N/A") ]
             "Metric" "Value"),
       st').
Proof. eexists. vm_compute. reflexivity. Qed.

(** A recomputation over a provider that fails: four placeholders and a
    table without rows. *)
Example update_graphs_offline :
  (update_graphs offline (Some "ACME") jan dec panels (fresh offline ())).1
  = Ok (Chained
          [ no_data_figure "Close" "ACME";
            no_data_figure "Open" "ACME";
            no_data_figure "Volume" "ACME";
            no_data_figure "Close" "ACME" ]
          []).
Proof. vm_compute. reflexivity. Qed.

(** * The further properties at sample inputs *)

Import MoreSamples.

Lemma get_stock_data_ticker_escapes_unreachable :
  Ticker unreachable "XYZ" (net (fresh unreachable ()))
  = (Raise (ProviderError "Invalid ISIN number"), ())
  ∧ get_stock_data unreachable "XYZ" jan dec (fresh unreachable ())
    = (Raise (ProviderError "Invalid ISIN number"),
       Build_state unreachable () [GetStockData "XYZ" jan dec] []).
Proof.
  split; [reflexivity|].
  exact (get_stock_data_ticker_escapes unreachable "XYZ" jan dec
           (fresh unreachable ()) _ () eq_refl).
Defined.


Lemma draw_raises_iff_close_only :
  is_Some (columns close_only !! "Close")
  ∧ first_absent close_only ohlc = Some "Open"
  ∧ ∃ ex, draw close_only "XYZ" "Close" "candlestick" = Raise ex.
Proof.
  assert (is_Some (columns close_only !! "Close")) as Hs
    by (vm_compute; eauto).
  split; [exact Hs|]. split; [reflexivity|].
  apply (proj2 (proj1 (draw_raises_iff close_only "XYZ" "Close"
                         "candlestick"))).
  split; [exact Hs|]. right. split; [reflexivity|]. by exists "Open".
Defined.

Lemma draw_figure_invariants_ohlcv :
  draw ohlcv "XYZ" "Close" "candlestick"
  = Ok (titled_figure
          [Candlestick days (px [10; 11]%Z) (px [12; 13]%Z) (px [9; 10]%Z)
             (px [11; 12]%Z) "green" "red"] "Close" "XYZ")
  ∧ layout (titled_figure
              [Candlestick days (px [10; 11]%Z) (px [12; 13]%Z) (px [9; 10]%Z)
                 (px [11; 12]%Z) "green" "red"] "Close" "XYZ") !! "height"
    = Some (VInt 400).
Proof.
  assert (draw ohlcv "XYZ" "Close" "candlestick"
          = Ok (titled_figure
                  [Candlestick days (px [10; 11]%Z) (px [12; 13]%Z)
                     (px [9; 10]%Z) (px [11; 12]%Z) "green" "red"]
                  "Close" "XYZ")) as H by reflexivity.
  split; [exact H|].
  exact (proj1 (proj2 (draw_figure_invariants ohlcv "XYZ" "Close"
                         "candlestick" _ H))).
Defined.

Lemma draw_title_tells_empty :
  draw (num := Z) DataFrame_empty "XYZ" "Close" "lines"
  = Ok (no_data_figure "Close" "XYZ")
  ∧ columns (DataFrame_empty (num := Z)) !! "Close" = None
  ∧ layout (no_data_figure (num := Z) "Close" "XYZ") !! "title"
    = Some (VStr "No data available for Close of XYZ").
Proof.
  assert (draw (num := Z) DataFrame_empty "XYZ" "Close" "lines"
          = Ok (no_data_figure "Close" "XYZ")) as H by reflexivity.
  split; [exact H|]. split; [reflexivity|].
  apply (proj2 (draw_title_tells DataFrame_empty "XYZ" "Close" "lines" _ H)).
  reflexivity.
Defined.

Lemma draw_unknown_chart_type_pie :
("pie" ∉ drawn_chart_types)
  ∧ draw ohlcv "XYZ" "Close" "pie" = Ok (titled_figure [] "Close" "XYZ").
Proof.
  assert ("pie" ∉ drawn_chart_types) as Hnot by compute_done.
  split; [exact Hnot|].
  exact (draw_unknown_chart_type ohlcv "XYZ" "Close" "pie" Hnot).
Defined.

Lemma draw_simple_charts_ohlcv :
  columns ohlcv !! "Volume" = Some [VInt 100; VInt 200]
  ∧ draw ohlcv "XYZ" "Volume" "bars"
    = Ok (titled_figure [Bar days [VInt 100; VInt 200] theme.line]
            "Volume" "XYZ").
Proof.
  split; [reflexivity|].
  exact (proj1 (proj2 (draw_simple_charts ohlcv "XYZ" "Volume" _ eq_refl))).
Defined.

Lemma draw_candlestick_ignores_metric_ohlcv :
  is_Some (columns ohlcv !! "Close")
  ∧ is_Some (columns ohlcv !! "Volume")
  ∧ match draw ohlcv "XYZ" "Close" "candlestick",
          draw ohlcv "XYZ" "Volume" "candlestick" with
    | Ok fig1, Ok fig2 => data fig1 = data fig2
    | Raise ex1, Raise ex2 => ex1 = ex2
    | _, _ => False
    end.
Proof.
  assert (is_Some (columns ohlcv !! "Close")) as H1 by (vm_compute; eauto).
  assert (is_Some (columns ohlcv !! "Volume")) as H2 by (vm_compute; eauto).
  split; [exact H1|]. split; [exact H2|].
  exact (draw_candlestick_ignores_metric ohlcv "XYZ" "Close" "Volume" H1 H2).
Defined.

Lemma draw_complete_series_samples :
  (∀ k, k ∈ ohlcv_columns → is_Some (columns ohlcv !! k))
  ∧ columns ohlcv !! "Volume" = Some [VInt 100; VInt 200]
  ∧ ¬ (∃ ex, draw ohlcv "XYZ" "Close" "bubble" = Raise ex)
  ∧ (∀ k, k ∈ ohlcv_columns → is_Some (columns bad_volume !! k))
  ∧ columns bad_volume !! "Volume" = Some [VInt (-100); VInt 200]
  ∧ ∃ ex, draw bad_volume "XYZ" "Close" "bubble" = Raise ex.
Proof.
  assert (∀ df : DataFrame Z,
            (∀ k, k ∈ ohlcv_columns → is_Some (columns df !! k))
            ↔ forallb (has_column df) ohlcv_columns = true) as Hb.
  { intros df. rewrite forallb_forall. split.
    - intros Hall k Hk. apply has_column_true, Hall. by apply list_elem_of_In.
    - intros Hall k Hk. apply has_column_true, Hall. by apply list_elem_of_In. }
  assert (∀ k, k ∈ ohlcv_columns → is_Some (columns ohlcv !! k)) as Hall
    by (apply Hb; vm_compute; reflexivity).
  assert (∀ k, k ∈ ohlcv_columns → is_Some (columns bad_volume !! k)) as Hall'
    by (apply Hb; vm_compute; reflexivity).
  split; [exact Hall|]. split; [reflexivity|]. split.
  { intros Hex.
    apply (proj1 (draw_complete_series ohlcv "XYZ" "Close" "bubble" _
                    Hall eq_refl)) in Hex as (_ & _ & Hbad).
    vm_compute in Hbad. discriminate Hbad. }
  split; [exact Hall'|]. split; [reflexivity|].
  apply (proj2 (draw_complete_series bad_volume "XYZ" "Close" "bubble" _
                  Hall' eq_refl)).
  split; [reflexivity|]. split; [vm_compute; eauto|reflexivity].
Defined.


Lemma update_graphs_ticker_escapes_unreachable :
  "XYZ" ≠ ""
  ∧ Ticker unreachable "XYZ" (net (fresh unreachable ()))
    = (Raise (ProviderError "Invalid ISIN number"), ())
  ∧ update_graphs unreachable (Some "XYZ") jan dec panels
      (fresh unreachable ())
    = (Raise (ProviderError "Invalid ISIN number"),
       Build_state unreachable ()
         [GenerateMetricGraph "XYZ" "Close" "lines" jan dec;
          GetStockData "XYZ" jan dec] []).
Proof.
  assert ("XYZ" ≠ "") as Hne by discriminate.
  split; [exact Hne|]. split; [reflexivity|].
  exact (update_graphs_ticker_escapes unreachable "XYZ" jan dec
           "Close" "Open" "Volume" "Close" "lines"
           ["bars"; "markers"; "lines"] (fresh unreachable ()) _ ()
           Hne eq_refl).
Defined.

Lemma update_graphs_few_args_steady :
  "XYZ" ≠ ""
  ∧ (length ["Close"; "Open"; "Volume"; "Close"] ≤ 4)%nat
  ∧ update_graphs steady (Some "XYZ") jan dec
      ["Close"; "Open"; "Volume"; "Close"] (fresh steady ())
    = (Raise (IndexError "tuple index out of range"), fresh steady ()).
Proof.
  assert ("XYZ" ≠ "") as Hne by discriminate.
  assert (length ["Close"; "Open"; "Volume"; "Close"] ≤ 4)%nat as Hlen
    by (simpl; lia).
  split; [exact Hne|]. split; [exact Hlen|].
  exact (update_graphs_few_args steady "XYZ" jan dec _ (fresh steady ())
           Hne Hlen).
Defined.

Lemma update_graphs_short_args_steady :
  "XYZ" ≠ ""
  ∧ (length (take 7 panels) < 8)%nat
  ∧ ∀ out st',
      (update_graphs steady (Some "XYZ") jan dec (take 7 panels)
         (fresh steady ())
       ≠ (Ok out, st')).
Proof.
  assert ("XYZ" ≠ "") as Hne by discriminate.
  assert (length (take 7 panels) < 8)%nat as Hlen by (simpl; lia).
  split; [exact Hne|]. split; [exact Hlen|]. intros out st'.
  exact (update_graphs_short_args steady "XYZ" jan dec (take 7 panels)
           (fresh steady ()) out st' Hne Hlen).
Defined.

Lemma update_graphs_extra_args_steady :
  length panels = 8%nat
  ∧ update_graphs steady (Some "XYZ") jan dec (panels ++ ["pie"; "Low"])
      (fresh steady ())
    = update_graphs steady (Some "XYZ") jan dec panels (fresh steady ()).
Proof.
  split; [reflexivity|].
  exact (update_graphs_extra_args steady (Some "XYZ") jan dec panels
           ["pie"; "Low"] (fresh steady ()) eq_refl).
Defined.




Lemma update_graphs_arity_idle :
  update_graphs steady None jan dec panels (fresh steady ())
  = (Ok (Paired (replicate 4 Figure_empty) []), fresh steady ())
  ∧ arity (Paired (num := Z) (replicate 4 Figure_empty) []) = 2%nat
  ∧ arity (Paired (num := Z) (replicate 4 Figure_empty) [])
    ≠ length callback_outputs.
Proof.
  assert (update_graphs steady None jan dec panels (fresh steady ())
          = (Ok (Paired (replicate 4 Figure_empty) []), fresh steady ()))
    as Hrun by reflexivity.
  destruct (update_graphs_arity steady None jan dec panels (fresh steady ())
              _ _ Hrun) as [Ha Hiff].
  split; [exact Hrun|]. split; [exact Ha|].
  intros Heq. apply Hiff in Heq. discriminate Heq.
Defined.

Lemma answers_steady : answers steady "XYZ" jan dec ohlcv.
Proof.
  split.
  - intros []. by exists "XYZ", (), ().
  - intros h []. by eexists _, ().
Defined.

Lemma update_graphs_answers_steady :
  "XYZ" ≠ ""
  ∧ answers steady "XYZ" jan dec ohlcv
  ∧ ∃ table,
      length table = 8%nat
      ∧ (update_graphs steady (Some "XYZ") jan dec
           ["Close"; "Open"; "Volume"; "Close";
            "lines"; "bars"; "pie"; "candlestick"] (fresh steady ())).1
        = match all_ok [ draw ohlcv "XYZ" "Close" "lines";
                         draw ohlcv "XYZ" "Open" "bars";
                         draw ohlcv "XYZ" "Volume" "pie";
                         draw ohlcv "XYZ" "Close" "candlestick" ] with
          | Ok figures => Ok (Chained figures table)
          | Raise ex => Raise ex
          end.
Proof.
  assert ("XYZ" ≠ "") as Hne by discriminate.
  split; [exact Hne|]. split; [exact answers_steady|].
  exact (update_graphs_answers steady "XYZ" jan dec ohlcv
           "Close" "Open" "Volume" "Close" "lines" "bars" "pie" "candlestick"
           (fresh steady ()) Hne answers_steady).
Defined.

Lemma callback_inputs_alignment_third_panel :
  (2 < 4)%nat
  ∧ tuple_item (take 4 (fst <$> drop 3 callback_inputs)) 2
    = Ok "metric-dropdown-2"
  ∧ tuple_item (drop 4 (fst <$> drop 3 callback_inputs)) 2
    = Ok "chart-type-dropdown-2".
Proof.
  assert (2 < 4)%nat as Hlt by lia.
  split; [exact Hlt|].
  exact (proj2 (callback_inputs_alignment fst 2 Hlt)).
Defined.

Lemma get_stock_data_records_match_table_steady :
  ∃ hist metrics st',
    get_stock_data steady "XYZ" jan dec (fresh steady ())
    = (Ok (hist, metrics), st')
    ∧ find_component app_layout "stock-metrics"
      = Some ("DataTable",
              {| c_id := Some "stock-metrics"; c_value := None;
                 c_options := []; c_columns := ["Metric"; "Value"] |})
    ∧ Forall (λ r : gmap string (value Z),
                dom r = list_to_set ["Metric"; "Value"])
        (to_dict_records metrics)
    ∧ length (to_dict_records metrics) = 8%nat.
Proof.
  destruct (get_stock_data steady "XYZ" jan dec (fresh steady ()))
    as [[[hist metrics]|ex] st'] eqn:Hrun.
  - exists hist, metrics, st'. split; [reflexivity|].
    assert (find_component app_layout "stock-metrics"
            = Some ("DataTable",
                    {| c_id := Some "stock-metrics"; c_value := None;
                       c_options := []; c_columns := ["Metric"; "Value"] |}))
      as Hfind by (vm_compute; reflexivity).
    split; [exact Hfind|]. split.
    + exact (get_stock_data_records_match_table steady "XYZ" jan dec
               (fresh steady ()) hist metrics st' _ _ Hrun Hfind).
    + vm_compute in Hrun. injection Hrun as _ <- _. vm_compute. reflexivity.
  - exfalso. vm_compute in Hrun. discriminate Hrun.
Defined.

Lemma default_start_date_leap_day_2024 :
  datetime.valid leap_day_2024 = true
  ∧ (2 ≤ datetime.year leap_day_2024)%Z
  ∧ ∃ msg,
      datetime.default_start_date leap_day_2024 leap_day_2024
      = datetime.ValueError msg.
Proof.
  split; [reflexivity|]. split; [done|].
  apply (proj2 (datetime_facts.default_start_date_leap_day
                  leap_day_2024 leap_day_2024 eq_refl eq_refl ltac:(done))).
  split; reflexivity.
Defined.

Lemma default_start_date_year_before_2026 :
  datetime.valid nov_3_2026 = true
  ∧ (2 ≤ datetime.year nov_3_2026)%Z
  ∧ ¬ (datetime.month nov_3_2026 = 2%Z ∧ datetime.day nov_3_2026 = 29%Z)
  ∧ ∃ d,
      datetime.default_start_date nov_3_2026 nov_3_2026 = datetime.Value d
      ∧ datetime.year d = 2025%Z
      ∧ datetime.ltb d nov_3_2026 = true.
Proof.
  assert (¬ (datetime.month nov_3_2026 = 2%Z ∧ datetime.day nov_3_2026 = 29%Z))
    as Hnot by (intros [H _]; discriminate H).
  split; [reflexivity|]. split; [done|]. split; [exact Hnot|].
  destruct (datetime_facts.default_start_date_year_before nov_3_2026
              eq_refl ltac:(done) Hnot)
    as (d & Hd & Hy & _ & _ & _ & _ & Hlt).
  exists d. split; [exact Hd|]. split; [exact Hy|exact Hlt].
Defined.
